(** * Token creation API (pages/api/create-token-v2.ts)

    A shallow embedding of the request handler of the Solana token creator:
    input validation, the custodial balance pre-flight, the two transactions
    (mint + metadata, then associated account + mint-to) and the response it
    composes, together with the properties the specification states about
    them.

    The handler is sequential code with three kinds of effect: it talks to
    collaborators (the RPC node, the key material, the web3 library), it may
    return early with an HTTP response, and any call may throw into the single
    [catch] at the end.  The embedding keeps the three apart: collaborators
    are the fields of a [World] record, and the body is written in a small
    monad [Eff] that logs the observable events in order and ends in a value,
    an early [return] or a thrown error. *)

From Stdlib Require Import ZArith QArith List String Ascii Bool Lia.
From Stdlib Require Import Init.Byte.
Import ListNotations.

Local Open Scope string_scope.
Local Open Scope Z_scope.

(** ** JavaScript values used by the handler *)

Module Js.

(** [!s] is false exactly for a present, non-empty string. *)
Definition truthy (s : option string) : bool :=
  match s with
  | Some s => negb (s =? "")%string
  | None => false
  end.

(** A JSON number is a finite double; every finite double is a rational,
    and [<], [>] and [BigInt] are exact on them. *)
Definition Number := Q.

(** [x < y] on numbers; an [undefined] operand converts to NaN and the
    comparison is false. *)
Definition lt (x y : option Number) : bool :=
  match x, y with
  | Some p, Some q => match (p ?= q)%Q with Lt => true | _ => false end
  | _, _ => false
  end.

Definition gt (x y : option Number) : bool := lt y x.

Definition isInteger (q : Number) : bool :=
  Z.rem (Qnum q) (Z.pos (Qden q)) =? 0.

(** [BigInt(q)]: the exact integer value, or [None] where the engine throws
    a RangeError because [q] is not an integer. *)
Definition BigInt (q : Number) : option Z :=
  if isInteger q then Some (Z.quot (Qnum q) (Z.pos (Qden q))) else None.

(** [hay.includes(needle)]. *)
Definition includes (needle hay : string) : bool :=
  match String.index 0 needle hay with
  | Some _ => true
  | None => false
  end.

(** [s.toUpperCase()] on code units below 128 (the others are left alone
    here; the development only applies it to ASCII text). *)
Definition upperChar (c : ascii) : ascii :=
  let n := nat_of_ascii c in
  if ((97 <=? n) && (n <=? 122))%nat then ascii_of_nat (n - 32) else c.

Fixpoint toUpperCase (s : string) : string :=
  match s with
  | EmptyString => EmptyString
  | String c s' => String (upperChar c) (toUpperCase s')
  end.

(** What a [throw] carries as far as the handler looks at it:
    [error.message], which may be absent. *)
Record Error := mkError { message : option string }.

End Js.

(** The outcome of a call into a collaborator. *)
Inductive Result (A : Type) : Type :=
| Ok (a : A)
| Throws (e : Js.Error).
Arguments Ok {A} a.
Arguments Throws {A} e.

(** ** src/lib/constants.ts *)

Definition TOKEN_DECIMALS : Z := 9.
Definition MAX_PREPURCHASE_AMOUNT : Z := 1000000000.

(** ** Library types and constants (web3.js, spl-token) *)

(** A public key is represented by its base58 text, so [toBase58] is the
    identity. *)
Definition PublicKey := string.
Definition Blockhash := string.
Definition Signature := string.

Record Keypair := mkKeypair { publicKey : PublicKey; secretKey : string }.

Definition LAMPORTS_PER_SOL : Z := 1000000000.
Definition MINT_SIZE : Z := 82.
Definition TOKEN_PROGRAM_ID : PublicKey := "TokenkegQfeZyiNwAJbNbGKPFXCWuBvf9Ss623VQ5DA".
Definition SystemProgram_programId : PublicKey := "11111111111111111111111111111111".
Definition SYSVAR_RENT_PUBKEY : PublicKey := "SysvarRent111111111111111111111111111111111".

(** ** Constants of create-token-v2.ts *)

Definition TOKEN_METADATA_PROGRAM_ID : PublicKey :=
  "metaqbxxUerdq28cj1RbAWkYQm3ybzjb6a8bt518x1s".

Definition MAX_TRANSACTION_SIZE : nat := 1232.
Definition COMPUTE_UNIT_LIMIT : Z := 400000.
Definition COMPUTE_UNIT_PRICE : Z := 1.

(** [Math.ceil(0.01 * LAMPORTS_PER_SOL)]: the double product is exactly
    10000000. *)
Definition FEE_BUFFER : Z := 10000000.

(** ** Instructions *)

(** [DataV2Args]; the three optional parts are always [null] here. *)
Record DataV2Args := mkDataV2 {
  data_name : string;
  data_symbol : string;
  data_uri : string;
  sellerFeeBasisPoints : Z;
  creators : option unit;
  collection : option unit;
  uses : option unit
}.

Record AccountMeta := mkMeta {
  pubkey : PublicKey;
  isSigner : bool;
  isWritable : bool
}.

(** The argument handed to the metadata instruction-data serializer.  The
    byte encoding is the library's; the embedding keeps the value that is
    encoded. *)
Record MetadataInstructionData := mkMetadataArgs {
  args_data : DataV2Args;
  args_isMutable : bool;
  args_collectionDetails : option unit
}.

(** One constructor per instruction factory the handler calls, with the
    factory's arguments, and [TransactionInstruction] for the one the file
    assembles by hand. *)
Inductive Instruction : Type :=
| SetComputeUnitLimit (units : Z)
| SetComputeUnitPrice (microLamports : Z)
| CreateAccount (fromPubkey newAccountPubkey : PublicKey)
                (space lamports : Z) (programId : PublicKey)
| InitializeMint (mint : PublicKey) (decimals : Z)
                 (mintAuthority freezeAuthority programId : PublicKey)
| TransactionInstruction (programId : PublicKey) (keys : list AccountMeta)
                         (data : MetadataInstructionData)
| CreateAssociatedTokenAccount (payer associatedToken owner mint
                                programId : PublicKey)
| MintTo (mint destination authority : PublicKey) (amount : Z)
         (multiSigners : list PublicKey) (programId : PublicKey).

(** [buildCreateMetadataAccountV3Instruction]. *)
Definition buildCreateMetadataAccountV3Instruction
  (metadataPda mint mintAuthority payer updateAuthority : PublicKey)
  (data : DataV2Args) (isMutable : option bool) : Instruction :=
  let instructionData :=
    {| args_data := data;
       args_isMutable := match isMutable with Some b => b | None => true end;
       args_collectionDetails := None |} in
  TransactionInstruction TOKEN_METADATA_PROGRAM_ID
    [ mkMeta metadataPda false true;
      mkMeta mint false false;
      mkMeta mintAuthority true false;
      mkMeta payer true true;
      mkMeta updateAuthority false false;
      mkMeta SystemProgram_programId false false;
      mkMeta SYSVAR_RENT_PUBKEY false false ]
    instructionData.

(** ** Transactions *)

Record Transaction := mkTx {
  recentBlockhash : option Blockhash;
  feePayer : option PublicKey;
  instructions : list Instruction;
  signers : list PublicKey
}.

Definition newTransaction : Transaction :=
  {| recentBlockhash := None; feePayer := None; instructions := []; signers := [] |}.

Definition setRecentBlockhash (b : Blockhash) (t : Transaction) : Transaction :=
  {| recentBlockhash := Some b; feePayer := feePayer t;
     instructions := instructions t; signers := signers t |}.

Definition setFeePayer (p : PublicKey) (t : Transaction) : Transaction :=
  {| recentBlockhash := recentBlockhash t; feePayer := Some p;
     instructions := instructions t; signers := signers t |}.

Definition add (i : Instruction) (t : Transaction) : Transaction :=
  {| recentBlockhash := recentBlockhash t; feePayer := feePayer t;
     instructions := (instructions t ++ [i])%list; signers := signers t |}.

Definition sign (ks : list Keypair) (t : Transaction) : Transaction :=
  {| recentBlockhash := recentBlockhash t; feePayer := feePayer t;
     instructions := instructions t; signers := map publicKey ks |}.

(** ** Request and response *)

Module Req.
(** [CreateTokenRequest] as it arrives: a field left out of the JSON body
    is [undefined], here [None]. *)
Record t := mk {
  name : option string;
  symbol : option string;
  description : option string;
  prePurchaseAmount : option Js.Number;
  userWallet : option string
}.
End Req.

Record NextApiRequest := mkRequest {
  method : string;
  body : Req.t
}.

(** The error texts.  The two template literals keep the interpolated number
    as an argument instead of its decimal rendering. *)
Inductive ErrorText : Type :=
| Text (s : string)
| InsufficientSol (requiredLamports : Z)
    (* `Backend wallet has insufficient SOL (need at least ${...} SOL). Please fund the backend wallet.` *)
| TooLarge (tx1Size : nat).
    (* `Transaction too large (${tx1Size} bytes). Try shorter name/symbol.` *)

Module Res.
(** [CreateTokenResponse]; a field that is [undefined] is dropped from the
    JSON and is [None] here. *)
Record t := mk {
  success : bool;
  mintAddress : option string;
  name : option string;
  symbol : option string;
  description : option string;
  prePurchaseAmount : option Js.Number;
  signature : option Signature;
  mintSignature : option Signature;
  userTokenAccount : option string;
  error : option ErrorText;
  warnings : option (list string)
}.

Definition failure (e : ErrorText) : t :=
  mk false None None None None None None None None (Some e) None.
End Res.

Record HttpResponse := mkResponse {
  status : nat;
  json : Res.t
}.

(** ** Collaborators *)

(** Everything the handler reads from outside: the process environment, the
    key material, the web3 helpers that may throw, and the RPC node.  The two
    [getLatestBlockhash] calls are told apart by their call number. *)
Record World := mkWorld {
  NEXT_PUBLIC_SOLANA_NETWORK : option string;
  NEXT_PUBLIC_RPC_ENDPOINT : option string;
  BACKEND_KEYPAIR_SECRET : option string;
  (* Keypair.fromSecretKey(bs58.decode(s)) *)
  keypairFromSecret : string -> Result Keypair;
  (* new PublicKey(s) *)
  newPublicKey : string -> Result PublicKey;
  (* Keypair.generate() *)
  generate : Keypair;
  findProgramAddressSync : list string -> PublicKey -> Result PublicKey;
  getAssociatedTokenAddress :
    PublicKey -> PublicKey -> bool -> PublicKey -> Result PublicKey;
  (* tx.serialize() *)
  serialize : Transaction -> Result (list byte);
  (* the engine's message for a failed BigInt conversion *)
  bigIntErrorMessage : option Js.Number -> string;
  getMinimumBalanceForRentExemptMint : string -> Result Z;
  getBalance : string -> PublicKey -> Result Z;
  getLatestBlockhash : string -> nat -> Result (Blockhash * Z);
  sendRawTransaction : string -> list byte -> Result Signature;
  confirmTransaction : string -> Signature -> Blockhash -> Z -> Result unit
}.

(** ** Observable events *)

Inductive TxName := Tx1 | Tx2.

Inductive Event : Type :=
| KeypairGenerate
| RentExemptionQuery (rpcUrl : string)
| BalanceQuery (rpcUrl : string) (owner : PublicKey)
| BlockhashFetch (rpcUrl : string)
| Add (tx : TxName) (i : Instruction)
| Sign (tx : TxName) (signed : Transaction)
| Submit (rpcUrl : string) (tx : TxName) (wire : list byte)
| Confirm (rpcUrl : string) (tx : TxName) (sig : Signature)
          (blockhash : Blockhash) (lastValidBlockHeight : Z)
| SetTimeout (ms : Z).

(** The network round trips. *)
Definition isNetwork (e : Event) : bool :=
  match e with
  | RentExemptionQuery _ | BalanceQuery _ _ | BlockhashFetch _
  | Submit _ _ _ | Confirm _ _ _ _ _ => true
  | _ => false
  end.

Definition isAdd (e : Event) : bool :=
  match e with Add _ _ => true | _ => false end.

Definition isSubmit (e : Event) : bool :=
  match e with Submit _ _ _ => true | _ => false end.

Definition isSubmitOf (n : TxName) (e : Event) : bool :=
  match e, n with
  | Submit _ Tx1 _, Tx1 | Submit _ Tx2 _, Tx2 => true
  | _, _ => false
  end.

Definition isBalanceQuery (e : Event) : bool :=
  match e with BalanceQuery _ _ => true | _ => false end.

(** The instructions added to a transaction, in order. *)
Fixpoint added (n : TxName) (log : list Event) : list Instruction :=
  match log with
  | [] => []
  | Add Tx1 i :: rest =>
      match n with Tx1 => i :: added n rest | Tx2 => added n rest end
  | Add Tx2 i :: rest =>
      match n with Tx2 => i :: added n rest | Tx1 => added n rest end
  | _ :: rest => added n rest
  end.

(** The wire sizes of what was handed to [sendRawTransaction]. *)
Fixpoint submittedSizes (log : list Event) : list nat :=
  match log with
  | [] => []
  | Submit _ _ wire :: rest => List.length wire :: submittedSizes rest
  | _ :: rest => submittedSizes rest
  end.

(** ** The effect monad of the handler body *)

Inductive Outcome (A : Type) : Type :=
| Val (a : A)
| Thrown (e : Js.Error)
| Returned (r : HttpResponse).
Arguments Val {A} a.
Arguments Thrown {A} e.
Arguments Returned {A} r.

Definition Eff (A : Type) : Type := (list Event * Outcome A)%type.

Definition ret {A} (a : A) : Eff A := ([], Val a).

Definition bind {A B} (m : Eff A) (k : A -> Eff B) : Eff B :=
  match m with
  | (log, Val a) => let (log', out) := k a in ((log ++ log')%list, out)
  | (log, Thrown e) => (log, Thrown e)
  | (log, Returned r) => (log, Returned r)
  end.

Declare Scope eff_scope.
Delimit Scope eff_scope with eff.
Notation "x <- m ;; k" := (bind m (fun x => k))
  (at level 61, m at next level, right associativity) : eff_scope.
Notation "' p <- m ;; k" := (bind m (fun x => let p := x in k))
  (at level 61, p pattern, m at next level, right associativity) : eff_scope.

(** [return res.status(s).json(j)]. *)
Definition respond {A} (s : nat) (j : Res.t) : Eff A :=
  ([], Returned (mkResponse s j)).

Definition emit (e : Event) : Eff unit := ([e], Val tt).

(** A local call that may throw. *)
Definition call {A} (r : Result A) : Eff A :=
  match r with
  | Ok a => ([], Val a)
  | Throws e => ([], Thrown e)
  end.

(** An awaited round trip: the event is logged whether or not it fails. *)
Definition await {A} (e : Event) (r : Result A) : Eff A :=
  match r with
  | Ok a => ([e], Val a)
  | Throws err => ([e], Thrown err)
  end.

(** [tx.add(i)]. *)
Definition addTo (n : TxName) (i : Instruction) (t : Transaction) : Eff Transaction :=
  ([Add n i], Val (add i t)).

(** [tx.sign(...ks)]. *)
Definition signWith (n : TxName) (ks : list Keypair) (t : Transaction) : Eff Transaction :=
  ([Sign n (sign ks t)], Val (sign ks t)).

(** [BigInt(x)] for a request field. *)
Definition bigInt (w : World) (x : option Js.Number) : Eff Z :=
  match x with
  | Some q =>
      match Js.BigInt q with
      | Some n => ret n
      | None => ([], Thrown (Js.mkError (Some (bigIntErrorMessage w x))))
      end
  | None => ([], Thrown (Js.mkError (Some (bigIntErrorMessage w x))))
  end.

(** [a || b] on strings from the environment. *)
Definition orElse (a : option string) (b : string) : string :=
  match a with
  | Some s => if (s =? "")%string then b else s
  | None => b
  end.

(** ** The handler *)

Local Open Scope eff_scope.

Definition decimals : Z := 9.

Definition truncationWarning : string :=
  "Description truncated to 200 characters to fit transaction size limit".

(** The body of the [try]. *)
Definition tryBlock (w : World) (b : Req.t) : Eff HttpResponse :=
  let description := Req.description b in
  let prePurchaseAmount := Req.prePurchaseAmount b in
  match Req.name b, Req.symbol b, Req.userWallet b with
  | Some name, Some symbol, Some userWallet =>
    (* Validate inputs *)
    if (name =? "")%string || (symbol =? "")%string || (userWallet =? "")%string then
      respond 400 (Res.failure (Text "Missing required fields: name, symbol, or userWallet"))
    else if (32 <? String.length name)%nat then
      respond 400 (Res.failure
        (Text "Token name must be 32 characters or less (Solana transaction size limit)"))
    else if (10 <? String.length symbol)%nat then
      respond 400 (Res.failure (Text "Symbol must be 10 characters or less"))
    else
    let warnings : list string :=
      match description with
      | Some d =>
          if negb (d =? "")%string && (200 <? String.length d)%nat
          then [truncationWarning] else []
      | None => []
      end in
    if Js.lt prePurchaseAmount (Some 0%Q) then
      respond 400 (Res.failure (Text "Pre-purchase amount cannot be negative"))
    else
    (* Initialize Solana connection *)
    let network := orElse (NEXT_PUBLIC_SOLANA_NETWORK w) "devnet" in
    let rpcUrl :=
      if (network =? "mainnet-beta")%string
      then orElse (NEXT_PUBLIC_RPC_ENDPOINT w) "https://api.mainnet-beta.solana.com"
      else "https://api.devnet.solana.com" in
    let connection := rpcUrl in
    (* Get backend keypair (mint authority) *)
    if negb (Js.truthy (BACKEND_KEYPAIR_SECRET w)) then
      respond 500 (Res.failure (Text "Backend keypair not configured"))
    else
    match keypairFromSecret w (orElse (BACKEND_KEYPAIR_SECRET w) "") with
    | Throws _ => respond 500 (Res.failure (Text "Invalid backend keypair format"))
    | Ok backendKeypair =>
    (* Validate user wallet address *)
    match newPublicKey w userWallet with
    | Throws _ => respond 400 (Res.failure (Text "Invalid user wallet address"))
    | Ok userPublicKey =>
    (* Generate new mint keypair *)
    _ <- emit KeypairGenerate ;;
    let mintKeypair := generate w in
    let mintPublicKey := publicKey mintKeypair in
    (* Calculate minimum balance for rent exemption *)
    lamports <- await (RentExemptionQuery connection)
                      (getMinimumBalanceForRentExemptMint w connection) ;;
    (* Ensure backend wallet has enough SOL for rent and fees up-front *)
    backendBalance <- await (BalanceQuery connection (publicKey backendKeypair))
                            (getBalance w connection (publicKey backendKeypair)) ;;
    let requiredLamports := lamports + FEE_BUFFER in
    if backendBalance <? requiredLamports then
      respond 400 (Res.failure (InsufficientSol requiredLamports))
    else
    (* Get recent blockhash *)
    ' (blockhash, lastValidBlockHeight) <-
        await (BlockhashFetch connection) (getLatestBlockhash w connection 0) ;;
    (* TRANSACTION 1: Create Mint + Metadata *)
    let tx1 := newTransaction in
    let tx1 := setRecentBlockhash blockhash tx1 in
    let tx1 := setFeePayer (publicKey backendKeypair) tx1 in
    tx1 <- addTo Tx1 (SetComputeUnitLimit COMPUTE_UNIT_LIMIT) tx1 ;;
    tx1 <- addTo Tx1 (SetComputeUnitPrice COMPUTE_UNIT_PRICE) tx1 ;;
    (* 1. Create mint account *)
    tx1 <- addTo Tx1 (CreateAccount (publicKey backendKeypair) mintPublicKey
                        MINT_SIZE lamports TOKEN_PROGRAM_ID) tx1 ;;
    (* 2. Initialize mint *)
    tx1 <- addTo Tx1 (InitializeMint mintPublicKey decimals
                        (publicKey backendKeypair) (publicKey backendKeypair)
                        TOKEN_PROGRAM_ID) tx1 ;;
    (* 3. Create metadata account *)
    metadataAddress <-
      call (findProgramAddressSync w
              ["metadata"; TOKEN_METADATA_PROGRAM_ID; mintPublicKey]
              TOKEN_METADATA_PROGRAM_ID) ;;
    let metadataData :=
      {| data_name := substring 0 32 name;
         data_symbol := substring 0 10 symbol;
         data_uri := "";
         sellerFeeBasisPoints := 0;
         creators := None;
         collection := None;
         uses := None |} in
    tx1 <- addTo Tx1 (buildCreateMetadataAccountV3Instruction
                        metadataAddress mintPublicKey
                        (publicKey backendKeypair) (publicKey backendKeypair)
                        (publicKey backendKeypair) metadataData None) tx1 ;;
    (* Check transaction size *)
    tx1 <- signWith Tx1 [backendKeypair; mintKeypair] tx1 ;;
    wire <- call (serialize w tx1) ;;
    let tx1Size := List.length wire in
    if (MAX_TRANSACTION_SIZE <? tx1Size)%nat then
      respond 400 (Res.failure (TooLarge tx1Size))
    else
    (* Send first transaction *)
    wire <- call (serialize w tx1) ;;
    signature <- await (Submit connection Tx1 wire)
                       (sendRawTransaction w connection wire) ;;
    (* Confirm transaction *)
    _ <- await (Confirm connection Tx1 signature blockhash lastValidBlockHeight)
               (confirmTransaction w connection signature blockhash
                                   lastValidBlockHeight) ;;
    (* TRANSACTION 2: Mint tokens to user (if requested) *)
    ' (userTokenAccount, mintSignature) <-
      (if Js.gt prePurchaseAmount (Some 0%Q) then
         (* Wait a bit to ensure previous transaction is finalized *)
         _ <- emit (SetTimeout 1000) ;;
         ' (blockhash2, lastValidBlockHeight2) <-
             await (BlockhashFetch connection) (getLatestBlockhash w connection 1) ;;
         let tx2 := newTransaction in
         let tx2 := setRecentBlockhash blockhash2 tx2 in
         let tx2 := setFeePayer (publicKey backendKeypair) tx2 in
         (* Add compute budget *)
         tx2 <- addTo Tx2 (SetComputeUnitLimit 200000) tx2 ;;
         (* Get associated token account address *)
         userTokenAccount <-
           call (getAssociatedTokenAddress w mintPublicKey userPublicKey false
                                           TOKEN_PROGRAM_ID) ;;
         (* Create associated token account *)
         tx2 <- addTo Tx2 (CreateAssociatedTokenAccount (publicKey backendKeypair)
                             userTokenAccount userPublicKey mintPublicKey
                             TOKEN_PROGRAM_ID) tx2 ;;
         (* Mint tokens to user *)
         n <- bigInt w prePurchaseAmount ;;
         let amount := n * 10 ^ decimals in
         tx2 <- addTo Tx2 (MintTo mintPublicKey userTokenAccount
                             (publicKey backendKeypair) amount [] TOKEN_PROGRAM_ID)
                      tx2 ;;
         tx2 <- signWith Tx2 [backendKeypair] tx2 ;;
         (* Send second transaction *)
         wire2 <- call (serialize w tx2) ;;
         mintSignature <- await (Submit connection Tx2 wire2)
                                (sendRawTransaction w connection wire2) ;;
         (* Confirm transaction *)
         _ <- await (Confirm connection Tx2 mintSignature blockhash2
                             lastValidBlockHeight2)
                    (confirmTransaction w connection mintSignature blockhash2
                                        lastValidBlockHeight2) ;;
         ret (Some userTokenAccount, Some mintSignature)
       else ret (None, None)) ;;
    (* Return success response *)
    respond 200
      {| Res.success := true;
         Res.mintAddress := Some mintPublicKey;
         Res.name := Some name;
         Res.symbol := Some symbol;
         Res.description := description;
         Res.prePurchaseAmount := prePurchaseAmount;
         Res.signature := Some signature;
         Res.mintSignature := mintSignature;
         Res.userTokenAccount := userTokenAccount;
         Res.error := None;
         Res.warnings := match warnings with [] => None | _ => Some warnings end |}
    end
    end
  | _, _, _ =>
    respond 400 (Res.failure (Text "Missing required fields: name, symbol, or userWallet"))
  end.

(** The [catch]: the message is rewritten when it contains one of three
    known fragments. *)
Definition catchBlock (error : Js.Error) : HttpResponse :=
  let has (needle : string) : bool :=
    match Js.message error with
    | Some m => Js.includes needle m
    | None => false
    end in
  let errorMessage := orElse (Js.message error) "Failed to create token" in
  let errorMessage :=
    if has "blockhash not found" then "Transaction expired. Please try again."
    else if has "insufficient funds" then
      "Insufficient SOL in backend wallet. Please fund it."
    else if has "Transaction too large" then
      "Transaction too large. Use shorter name/symbol."
    else errorMessage in
  mkResponse 500 (Res.failure (Text errorMessage)).

Definition handler (w : World) (req : NextApiRequest) : list Event * HttpResponse :=
  if negb (method req =? "POST")%string then
    ([], mkResponse 405 (Res.failure (Text "Method not allowed")))
  else
    match tryBlock w (body req) with
    | (log, Val r) => (log, r)
    | (log, Returned r) => (log, r)
    | (log, Thrown e) => (log, catchBlock e)
    end.

Definition trace (w : World) (req : NextApiRequest) : list Event :=
  fst (handler w req).

Definition response (w : World) (req : NextApiRequest) : HttpResponse :=
  snd (handler w req).

(** ** Observations on requests, traces and responses *)

(** [s.length > k] for a field that may be absent. *)
Definition longer (s : option string) (k : nat) : bool :=
  match s with
  | Some s => (k <? String.length s)%nat
  | None => false
  end.

(** The events that precede the first [tx.add], when there is one. *)
Fixpoint beforeFirstAdd (log : list Event) : option (list Event) :=
  match log with
  | [] => None
  | e :: rest =>
      if isAdd e then Some [] else option_map (cons e) (beforeFirstAdd rest)
  end.

(** The amounts of the mint-to instructions built, in order. *)
Fixpoint mintToAmounts (log : list Event) : list Z :=
  match log with
  | [] => []
  | Add _ (MintTo _ _ _ amount _ _) :: rest => amount :: mintToAmounts rest
  | _ :: rest => mintToAmounts rest
  end.

(** The metadata payloads of the hand-assembled instructions built. *)
Fixpoint metadataBuilt (log : list Event) : list DataV2Args :=
  match log with
  | [] => []
  | Add _ (TransactionInstruction _ _ d) :: rest => args_data d :: metadataBuilt rest
  | _ :: rest => metadataBuilt rest
  end.

Definition withAmount (a : option Js.Number) (req : NextApiRequest) : NextApiRequest :=
  let b := body req in
  mkRequest (method req)
    (Req.mk (Req.name b) (Req.symbol b) (Req.description b) a (Req.userWallet b)).

Definition withDescription (d : option string) (req : NextApiRequest) : NextApiRequest :=
  let b := body req in
  mkRequest (method req)
    (Req.mk (Req.name b) (Req.symbol b) d (Req.prePurchaseAmount b) (Req.userWallet b)).

(** A response with the echoed [prePurchaseAmount] left out. *)
Definition eraseAmount (r : HttpResponse) : HttpResponse :=
  let j := json r in
  mkResponse (status r)
    (Res.mk (Res.success j) (Res.mintAddress j) (Res.name j) (Res.symbol j)
       (Res.description j) None (Res.signature j) (Res.mintSignature j)
       (Res.userTokenAccount j) (Res.error j) (Res.warnings j)).

(** ** Concrete worlds and requests *)

Module Sample.

Definition backend : Keypair := mkKeypair "BackendPubkey" "backend-secret".
Definition mintKey : Keypair := mkKeypair "MintPubkey" "mint-secret".

(** A funded backend wallet and a node that accepts everything; every
    transaction serializes to 100 bytes per instruction plus 64 per
    signature. *)
Definition happy : World :=
  {| NEXT_PUBLIC_SOLANA_NETWORK := None;
     NEXT_PUBLIC_RPC_ENDPOINT := None;
     BACKEND_KEYPAIR_SECRET := Some "backend-secret";
     keypairFromSecret := fun _ => Ok backend;
     newPublicKey := fun s => Ok s;
     generate := mintKey;
     findProgramAddressSync := fun _ _ => Ok "MetadataPda";
     getAssociatedTokenAddress := fun _ _ _ _ => Ok "UserTokenAccount";
     serialize := fun t =>
       Ok (repeat x00 (100 * List.length (instructions t)
                       + 64 * List.length (signers t))%nat);
     bigIntErrorMessage := fun _ => "cannot be converted to a BigInt";
     getMinimumBalanceForRentExemptMint := fun _ => Ok 1461600;
     getBalance := fun _ _ => Ok 2000000000;
     getLatestBlockhash := fun _ n => Ok ("Blockhash", 1000 + Z.of_nat n);
     sendRawTransaction := fun _ wire =>
       Ok (if (List.length wire <? 500)%nat then "Sig2" else "Sig1");
     confirmTransaction := fun _ _ _ _ => Ok tt |}.

Definition withBalance (bal : Z) (w : World) : World :=
  {| NEXT_PUBLIC_SOLANA_NETWORK := NEXT_PUBLIC_SOLANA_NETWORK w;
     NEXT_PUBLIC_RPC_ENDPOINT := NEXT_PUBLIC_RPC_ENDPOINT w;
     BACKEND_KEYPAIR_SECRET := BACKEND_KEYPAIR_SECRET w;
     keypairFromSecret := keypairFromSecret w;
     newPublicKey := newPublicKey w;
     generate := generate w;
     findProgramAddressSync := findProgramAddressSync w;
     getAssociatedTokenAddress := getAssociatedTokenAddress w;
     serialize := serialize w;
     bigIntErrorMessage := bigIntErrorMessage w;
     getMinimumBalanceForRentExemptMint := getMinimumBalanceForRentExemptMint w;
     getBalance := fun _ _ => Ok bal;
     getLatestBlockhash := getLatestBlockhash w;
     sendRawTransaction := sendRawTransaction w;
     confirmTransaction := confirmTransaction w |}.


Definition withSend (f : string -> list byte -> Result Signature) (w : World) : World :=
  {| NEXT_PUBLIC_SOLANA_NETWORK := NEXT_PUBLIC_SOLANA_NETWORK w;
     NEXT_PUBLIC_RPC_ENDPOINT := NEXT_PUBLIC_RPC_ENDPOINT w;
     BACKEND_KEYPAIR_SECRET := BACKEND_KEYPAIR_SECRET w;
     keypairFromSecret := keypairFromSecret w;
     newPublicKey := newPublicKey w;
     generate := generate w;
     findProgramAddressSync := findProgramAddressSync w;
     getAssociatedTokenAddress := getAssociatedTokenAddress w;
     serialize := serialize w;
     bigIntErrorMessage := bigIntErrorMessage w;
     getMinimumBalanceForRentExemptMint := getMinimumBalanceForRentExemptMint w;
     getBalance := getBalance w;
     getLatestBlockhash := getLatestBlockhash w;
     sendRawTransaction := f;
     confirmTransaction := confirmTransaction w |}.

Definition post (name symbol : string) (description : option string)
           (amount : option Js.Number) : NextApiRequest :=
  mkRequest "POST"
    (Req.mk (Some name) (Some symbol) description amount (Some "UserWalletPubkey")).

(** Scenario A and scenario B of the specification. *)
Definition scenarioA : NextApiRequest :=
  post "Test Token" "TEST" (Some "A test token") (Some (inject_Z 1000)).
Definition scenarioB : NextApiRequest :=
  post "No Mint Token" "NOMINT" (Some "Token with no initial mint") (Some 0%Q).

Definition withConfirm (f : string -> Signature -> Blockhash -> Z -> Result unit)
           (w : World) : World :=
  {| NEXT_PUBLIC_SOLANA_NETWORK := NEXT_PUBLIC_SOLANA_NETWORK w;
     NEXT_PUBLIC_RPC_ENDPOINT := NEXT_PUBLIC_RPC_ENDPOINT w;
     BACKEND_KEYPAIR_SECRET := BACKEND_KEYPAIR_SECRET w;
     keypairFromSecret := keypairFromSecret w;
     newPublicKey := newPublicKey w;
     generate := generate w;
     findProgramAddressSync := findProgramAddressSync w;
     getAssociatedTokenAddress := getAssociatedTokenAddress w;
     serialize := serialize w;
     bigIntErrorMessage := bigIntErrorMessage w;
     getMinimumBalanceForRentExemptMint := getMinimumBalanceForRentExemptMint w;
     getBalance := getBalance w;
     getLatestBlockhash := getLatestBlockhash w;
     sendRawTransaction := sendRawTransaction w;
     confirmTransaction := f |}.

Definition devnet : string := "https://api.devnet.solana.com".

Definition simulationFailed : Js.Error :=
  Js.mkError (Some "Transaction simulation failed").

(** The node accepts the first transaction and rejects the second. *)
Definition phase2Rejected : World :=
  withSend (fun _ wire =>
              if (List.length wire <? 500)%nat then Throws simulationFailed
              else Ok "Sig1") happy.

(** The node confirms the first transaction and never the second. *)
Definition phase2Unconfirmed : World :=
  withConfirm (fun _ sig _ _ =>
                 if (sig =? "Sig2")%string then Throws simulationFailed
                 else Ok tt) happy.

(** The node rejects the first transaction already. *)
Definition phase1Rejected : World :=
  withSend (fun _ _ => Throws simulationFailed) happy.

(** A backend wallet holding 0.005 SOL. *)
Definition poor : World := withBalance 5000000 happy.

Fixpoint repeatChar (c : ascii) (n : nat) : string :=
  match n with
  | O => EmptyString
  | S n' => String c (repeatChar c n')
  end.

Definition longDescription : string := repeatChar "d"%char 201.

Definition longDescriptionRequest : NextApiRequest :=
  post "Test Token" "TEST" (Some longDescription) (Some 0%Q).

Definition lowerCaseRequest : NextApiRequest :=
  post "Test Token" "test" None (Some 0%Q).

Definition overMaximumRequest : NextApiRequest :=
  post "Big Supply Token" "BIG" None (Some (inject_Z 2000000000)).

Definition fractionalRequest : NextApiRequest :=
  post "Test Token" "TEST" None (Some (3 # 2)%Q).

Definition negativeRequest : NextApiRequest :=
  post "Test Token" "TEST" None (Some (inject_Z (-1))).

Definition omittedAmountRequest : NextApiRequest :=
  post "Test Token" "TEST" (Some "A test token") None.

(** Scenario C of the specification. *)
Definition scenarioC : NextApiRequest :=
  post "Test" "TOOLONGTICKER" (Some "") (Some 0%Q).

End Sample.

(** ** Phase outcomes *)

(** Phase 2 fails at submission or at confirmation with error [e]. *)
Definition phase2Fails (w : World) (req : NextApiRequest) (e : Js.Error) : Prop :=
  (exists url wire,
      In (Submit url Tx2 wire) (trace w req) /\
      sendRawTransaction w url wire = Throws e) \/
  (exists url sig bh lv,
      In (Confirm url Tx2 sig bh lv) (trace w req) /\
      confirmTransaction w url sig bh lv = Throws e).

(** Phase 1 was submitted and [confirmTransaction] returned for it. *)
Definition phase1Confirmed (w : World) (req : NextApiRequest) : Prop :=
  exists url sig bh lv,
    In (Confirm url Tx1 sig bh lv) (trace w req) /\
    confirmTransaction w url sig bh lv = Ok tt.



(** ** The single-transaction handler (pages/api/create-token) *)

(** The earlier route builds everything in one transaction, which the
    events label [Tx1]: no compute-budget instructions, no length limit on
    the name, no size test, the blockhash fetched after the instructions are
    built, and a [catch] that passes the message on as it is. *)
Module V1.

Definition tryBlock (w : World) (b : Req.t) : Eff HttpResponse :=
  let description := Req.description b in
  let prePurchaseAmount := Req.prePurchaseAmount b in
  match Req.name b, Req.symbol b, Req.userWallet b with
  | Some name, Some symbol, Some userWallet =>
    (* Validate inputs *)
    if (name =? "")%string || (symbol =? "")%string || (userWallet =? "")%string then
      respond 400 (Res.failure (Text "Missing required fields: name, symbol, or userWallet"))
    else if (10 <? String.length symbol)%nat then
      respond 400 (Res.failure (Text "Symbol must be 10 characters or less"))
    else if Js.lt prePurchaseAmount (Some 0%Q) then
      respond 400 (Res.failure (Text "Pre-purchase amount cannot be negative"))
    else
    (* Initialize Solana connection *)
    let network := orElse (NEXT_PUBLIC_SOLANA_NETWORK w) "devnet" in
    let rpcUrl :=
      if (network =? "mainnet-beta")%string
      then orElse (NEXT_PUBLIC_RPC_ENDPOINT w) "https://api.mainnet-beta.solana.com"
      else "https://api.devnet.solana.com" in
    let connection := rpcUrl in
    (* Get backend keypair (mint authority) *)
    if negb (Js.truthy (BACKEND_KEYPAIR_SECRET w)) then
      respond 500 (Res.failure (Text "Backend keypair not configured"))
    else
    match keypairFromSecret w (orElse (BACKEND_KEYPAIR_SECRET w) "") with
    | Throws _ => respond 500 (Res.failure (Text "Invalid backend keypair format"))
    | Ok backendKeypair =>
    (* Validate user wallet address *)
    match newPublicKey w userWallet with
    | Throws _ => respond 400 (Res.failure (Text "Invalid user wallet address"))
    | Ok userPublicKey =>
    (* Generate new mint keypair *)
    _ <- emit KeypairGenerate ;;
    let mintKeypair := generate w in
    let mintPublicKey := publicKey mintKeypair in
    (* Calculate minimum balance for rent exemption *)
    lamports <- await (RentExemptionQuery connection)
                      (getMinimumBalanceForRentExemptMint w connection) ;;
    (* Ensure backend wallet has enough SOL for rent and fees up-front *)
    backendBalance <- await (BalanceQuery connection (publicKey backendKeypair))
                            (getBalance w connection (publicKey backendKeypair)) ;;
    let requiredLamports := lamports + FEE_BUFFER in
    if backendBalance <? requiredLamports then
      respond 400 (Res.failure (InsufficientSol requiredLamports))
    else
    (* Build transaction *)
    let transaction := newTransaction in
    (* 1. Create mint account *)
    transaction <- addTo Tx1 (CreateAccount (publicKey backendKeypair) mintPublicKey
                                MINT_SIZE lamports TOKEN_PROGRAM_ID) transaction ;;
    (* 2. Initialize mint *)
    transaction <- addTo Tx1 (InitializeMint mintPublicKey decimals
                                (publicKey backendKeypair) (publicKey backendKeypair)
                                TOKEN_PROGRAM_ID) transaction ;;
    (* 3. Create metadata account *)
    metadataAddress <-
      call (findProgramAddressSync w
              ["metadata"; TOKEN_METADATA_PROGRAM_ID; mintPublicKey]
              TOKEN_METADATA_PROGRAM_ID) ;;
    let metadataData :=
      {| data_name := name;
         data_symbol := symbol;
         data_uri := "";
         sellerFeeBasisPoints := 0;
         creators := None;
         collection := None;
         uses := None |} in
    transaction <- addTo Tx1 (buildCreateMetadataAccountV3Instruction
                                metadataAddress mintPublicKey
                                (publicKey backendKeypair) (publicKey backendKeypair)
                                (publicKey backendKeypair) metadataData None)
                         transaction ;;
    (* 4. If prePurchaseAmount > 0, create user's token account and mint tokens *)
    ' (userTokenAccount, transaction) <-
      (if Js.gt prePurchaseAmount (Some 0%Q) then
         (* Get associated token account address *)
         userTokenAccount <-
           call (getAssociatedTokenAddress w mintPublicKey userPublicKey false
                                           TOKEN_PROGRAM_ID) ;;
         (* Create associated token account *)
         transaction <- addTo Tx1 (CreateAssociatedTokenAccount
                                     (publicKey backendKeypair) userTokenAccount
                                     userPublicKey mintPublicKey TOKEN_PROGRAM_ID)
                              transaction ;;
         (* Mint tokens to user *)
         n <- bigInt w prePurchaseAmount ;;
         let amount := n * 10 ^ decimals in
         transaction <- addTo Tx1 (MintTo mintPublicKey userTokenAccount
                                     (publicKey backendKeypair) amount []
                                     TOKEN_PROGRAM_ID) transaction ;;
         ret (Some userTokenAccount, transaction)
       else ret (None, transaction)) ;;
    (* Get recent blockhash *)
    ' (blockhash, lastValidBlockHeight) <-
        await (BlockhashFetch connection) (getLatestBlockhash w connection 0) ;;
    let transaction := setRecentBlockhash blockhash transaction in
    let transaction := setFeePayer (publicKey backendKeypair) transaction in
    (* Sign transaction *)
    transaction <- signWith Tx1 [backendKeypair; mintKeypair] transaction ;;
    (* Send transaction *)
    wire <- call (serialize w transaction) ;;
    signature <- await (Submit connection Tx1 wire)
                       (sendRawTransaction w connection wire) ;;
    (* Confirm transaction *)
    _ <- await (Confirm connection Tx1 signature blockhash lastValidBlockHeight)
               (confirmTransaction w connection signature blockhash
                                   lastValidBlockHeight) ;;
    (* Return success response *)
    respond 200
      {| Res.success := true;
         Res.mintAddress := Some mintPublicKey;
         Res.name := Some name;
         Res.symbol := Some symbol;
         Res.description := description;
         Res.prePurchaseAmount := prePurchaseAmount;
         Res.signature := Some signature;
         Res.mintSignature := None;
         Res.userTokenAccount := userTokenAccount;
         Res.error := None;
         Res.warnings := None |}
    end
    end
  | _, _, _ =>
    respond 400 (Res.failure (Text "Missing required fields: name, symbol, or userWallet"))
  end.

Definition catchBlock (error : Js.Error) : HttpResponse :=
  mkResponse 500
    (Res.failure (Text (orElse (Js.message error) "Failed to create token"))).

Definition handler (w : World) (req : NextApiRequest) : list Event * HttpResponse :=
  if negb (method req =? "POST")%string then
    ([], mkResponse 405 (Res.failure (Text "Method not allowed")))
  else
    match tryBlock w (body req) with
    | (log, Val r) => (log, r)
    | (log, Returned r) => (log, r)
    | (log, Thrown e) => (log, catchBlock e)
    end.

Definition trace (w : World) (req : NextApiRequest) : list Event :=
  fst (handler w req).

Definition response (w : World) (req : NextApiRequest) : HttpResponse :=
  snd (handler w req).

End V1.

(** ** The creation form (components/TokenCreationForm.tsx) *)

(** [handleSubmit] up to the [fetch]: either an error is shown or a request
    is sent.  The string built-ins are parameters. *)
Module Form.

(** What [parseFloat] can return. *)
Inductive Parsed : Type :=
| NaN
| Infinity
| NegInfinity
| Finite (q : Q).

Definition isNaN (p : Parsed) : bool :=
  match p with NaN => true | _ => false end.

(** [p < q] and [p > q] against a finite number. *)
Definition lt (p : Parsed) (q : Q) : bool :=
  match p with
  | NaN | Infinity => false
  | NegInfinity => true
  | Finite x => Js.lt (Some x) (Some q)
  end.

Definition gt (p : Parsed) (q : Q) : bool :=
  match p with
  | NaN | NegInfinity => false
  | Infinity => true
  | Finite x => Js.gt (Some x) (Some q)
  end.

(** The number as [JSON.stringify] writes it and the route reads it back;
    NaN and the infinities are written as null, which both comparisons of
    the handlers treat like a missing field. *)
Definition toJson (p : Parsed) : option Js.Number :=
  match p with Finite q => Some q | _ => None end.

Record FormData := mkFormData {
  name : string;
  ticker : string;
  description : string;
  prePurchaseAmount : string
}.

(** The error shown; the one template literal keeps its number. *)
Inductive Error : Type :=
| Message (s : string)
| CannotExceed (max : Z).
    (* `Pre-purchase amount cannot exceed ${MAX_PREPURCHASE_AMOUNT.toLocaleString()}` *)

Inductive Outcome : Type :=
| SetError (e : Error)
| Fetch (url : string) (request : NextApiRequest).

Section Builtins.

Variable trim : string -> string.
Variable toUpperCase : string -> string.
Variable parseFloat : string -> Parsed.

Definition handleSubmit (connected : bool) (publicKey : option PublicKey)
           (formData : FormData) : Outcome :=
  match connected, publicKey with
  | true, Some publicKey =>
    (* Validation *)
    if (trim (name formData) =? "")%string then
      SetError (Message "Token name is required")
    else if (trim (ticker formData) =? "")%string then
      SetError (Message "Token ticker is required")
    else if (10 <? String.length (ticker formData))%nat then
      SetError (Message "Ticker symbol must be 10 characters or less")
    else
    let prePurchase :=
      parseFloat (orElse (Some (prePurchaseAmount formData)) "0") in
    if isNaN prePurchase || lt prePurchase 0%Q then
      SetError (Message "Pre-purchase amount must be a valid positive number")
    else if gt prePurchase (inject_Z MAX_PREPURCHASE_AMOUNT) then
      SetError (CannotExceed MAX_PREPURCHASE_AMOUNT)
    else
    Fetch "/api/create-token"
      (mkRequest "POST"
         (Req.mk (Some (trim (name formData)))
                 (Some (toUpperCase (trim (ticker formData))))
                 (if (trim (description formData) =? "")%string then None
                  else Some (trim (description formData)))
                 (toJson prePurchase)
                 (Some publicKey)))
  | _, _ => SetError (Message "Please connect your wallet first")
  end.

End Builtins.

End Form.

(** ** Further observations on traces *)

(** The endpoint a network event went to. *)
Definition eventUrl (e : Event) : option string :=
  match e with
  | RentExemptionQuery u | BalanceQuery u _ | BlockhashFetch u
  | Submit u _ _ | Confirm u _ _ _ _ => Some u
  | _ => None
  end.

(** The endpoint the handlers connect to. *)
Definition endpointOf (w : World) : string :=
  if (orElse (NEXT_PUBLIC_SOLANA_NETWORK w) "devnet" =? "mainnet-beta")%string
  then orElse (NEXT_PUBLIC_RPC_ENDPOINT w) "https://api.mainnet-beta.solana.com"
  else "https://api.devnet.solana.com".

(** The public keys an instruction assembled by hand asks signatures of. *)
Definition requiredSigners (i : Instruction) : list PublicKey :=
  match i with
  | TransactionInstruction _ keys _ => map pubkey (filter isSigner keys)
  | _ => []
  end.

(** The fields of a response that only a success carries. *)
Definition carriesNoData (j : Res.t) : Prop :=
  Res.mintAddress j = None /\ Res.name j = None /\ Res.symbol j = None /\
  Res.description j = None /\ Res.prePurchaseAmount j = None /\
  Res.signature j = None /\ Res.mintSignature j = None /\
  Res.userTokenAccount j = None /\ Res.warnings j = None.

(** An error text that is not the empty string. *)
Definition nonEmptyError (e : option ErrorText) : Prop :=
  match e with
  | Some (Text s) => s <> ""
  | Some _ => True
  | None => False
  end.

(** More worlds and inputs. *)
Module Cases.

Definition withNetwork (network endpoint : option string) (w : World) : World :=
  {| NEXT_PUBLIC_SOLANA_NETWORK := network;
     NEXT_PUBLIC_RPC_ENDPOINT := endpoint;
     BACKEND_KEYPAIR_SECRET := BACKEND_KEYPAIR_SECRET w;
     keypairFromSecret := keypairFromSecret w;
     newPublicKey := newPublicKey w;
     generate := generate w;
     findProgramAddressSync := findProgramAddressSync w;
     getAssociatedTokenAddress := getAssociatedTokenAddress w;
     serialize := serialize w;
     bigIntErrorMessage := bigIntErrorMessage w;
     getMinimumBalanceForRentExemptMint := getMinimumBalanceForRentExemptMint w;
     getBalance := getBalance w;
     getLatestBlockhash := getLatestBlockhash w;
     sendRawTransaction := sendRawTransaction w;
     confirmTransaction := confirmTransaction w |}.

Definition withSecret (secret : option string)
           (decode : string -> Result Keypair) (w : World) : World :=
  {| NEXT_PUBLIC_SOLANA_NETWORK := NEXT_PUBLIC_SOLANA_NETWORK w;
     NEXT_PUBLIC_RPC_ENDPOINT := NEXT_PUBLIC_RPC_ENDPOINT w;
     BACKEND_KEYPAIR_SECRET := secret;
     keypairFromSecret := decode;
     newPublicKey := newPublicKey w;
     generate := generate w;
     findProgramAddressSync := findProgramAddressSync w;
     getAssociatedTokenAddress := getAssociatedTokenAddress w;
     serialize := serialize w;
     bigIntErrorMessage := bigIntErrorMessage w;
     getMinimumBalanceForRentExemptMint := getMinimumBalanceForRentExemptMint w;
     getBalance := getBalance w;
     getLatestBlockhash := getLatestBlockhash w;
     sendRawTransaction := sendRawTransaction w;
     confirmTransaction := confirmTransaction w |}.

Definition withParser (parse : string -> Result PublicKey) (w : World) : World :=
  {| NEXT_PUBLIC_SOLANA_NETWORK := NEXT_PUBLIC_SOLANA_NETWORK w;
     NEXT_PUBLIC_RPC_ENDPOINT := NEXT_PUBLIC_RPC_ENDPOINT w;
     BACKEND_KEYPAIR_SECRET := BACKEND_KEYPAIR_SECRET w;
     keypairFromSecret := keypairFromSecret w;
     newPublicKey := parse;
     generate := generate w;
     findProgramAddressSync := findProgramAddressSync w;
     getAssociatedTokenAddress := getAssociatedTokenAddress w;
     serialize := serialize w;
     bigIntErrorMessage := bigIntErrorMessage w;
     getMinimumBalanceForRentExemptMint := getMinimumBalanceForRentExemptMint w;
     getBalance := getBalance w;
     getLatestBlockhash := getLatestBlockhash w;
     sendRawTransaction := sendRawTransaction w;
     confirmTransaction := confirmTransaction w |}.

Definition invalidKey : Js.Error := Js.mkError (Some "Invalid public key input").

(** A mainnet deployment with its own endpoint. *)
Definition mainnet : World :=
  withNetwork (Some "mainnet-beta") (Some "https://rpc.example.org") Sample.happy.

(** A devnet deployment that also sets an endpoint. *)
Definition devnetWithEndpoint : World :=
  withNetwork (Some "devnet") (Some "https://rpc.example.org") Sample.happy.

(** No backend secret configured. *)
Definition unconfigured : World :=
  withSecret None (fun _ => Ok Sample.backend) Sample.happy.

(** A parser that refuses every address. *)
Definition strictParser : World :=
  withParser (fun _ => Throws invalidKey) Sample.happy.

Definition emptyNameRequest : NextApiRequest :=
  Sample.post "" "TEST" (Some "") (Some 0%Q).

Definition longNameRequest : NextApiRequest :=
  Sample.post "A token name of more than thirty-two characters" "LONG" None
    (Some 0%Q).

(** ASCII stand-ins for the string built-ins of the form. *)
Fixpoint dropSpaces (s : string) : string :=
  match s with
  | String " "%char s' => dropSpaces s'
  | _ => s
  end.

Definition parseDigits (s : string) : Form.Parsed :=
  if (s =? "0")%string then Form.Finite 0%Q
  else if (s =? "1000")%string then Form.Finite (inject_Z 1000)
  else if (s =? "1.5")%string then Form.Finite (3 # 2)%Q
  else Form.NaN.

Definition filled : Form.FormData :=
  Form.mkFormData "Test Token" "test" "" "1000".

Definition fractional : Form.FormData :=
  Form.mkFormData "Test Token" "test" "" "1.5".

Definition submit (f : Form.FormData) : Form.Outcome :=
  Form.handleSubmit dropSpaces Js.toUpperCase parseDigits true
    (Some "UserWalletPubkey") f.

End Cases.

(** ** Statements about responses, plans and the form *)

(** A response is either a complete success or a bare failure. *)
Definition wellFormed (r : HttpResponse) : Prop :=
  (status r = 200%nat /\
   Res.success (json r) = true /\
   Res.error (json r) = None /\
   Res.mintAddress (json r) <> None /\
   Res.name (json r) <> None /\
   Res.symbol (json r) <> None /\
   Res.signature (json r) <> None) \/
  ((status r = 400%nat \/ status r = 405%nat \/ status r = 500%nat) /\
   Res.success (json r) = false /\
   nonEmptyError (Res.error (json r)) /\
   carriesNoData (json r)).

(** Every test that comes before the first effect has passed; the limit on
    the name is the one route-specific part. *)
Definition inputsAccepted (nameLimit : option nat) (w : World)
           (req : NextApiRequest) : Prop :=
  method req = "POST" /\
  exists name symbol wallet secret backend user,
    Req.name (body req) = Some name /\ name <> "" /\
    match nameLimit with
    | Some k => (String.length name <= k)%nat
    | None => True
    end /\
    Req.symbol (body req) = Some symbol /\ symbol <> "" /\
    (String.length symbol <= 10)%nat /\
    Js.lt (Req.prePurchaseAmount (body req)) (Some 0%Q) = false /\
    BACKEND_KEYPAIR_SECRET w = Some secret /\
    keypairFromSecret w secret = Ok backend /\
    Req.userWallet (body req) = Some wallet /\
    newPublicKey w wallet = Ok user.

(** An instruction names the generated mint, the custodial signer and the
    parsed user wallet where it should, and the addresses derived for them. *)
Definition wellTargeted (w : World) (req : NextApiRequest) (backend : Keypair)
           (i : Instruction) : Prop :=
  let mintKey := publicKey (generate w) in
  let signer := publicKey backend in
  match i with
  | SetComputeUnitLimit units => units = COMPUTE_UNIT_LIMIT \/ units = 200000
  | SetComputeUnitPrice price => price = COMPUTE_UNIT_PRICE
  | CreateAccount from new space lamports pid =>
      from = signer /\ new = mintKey /\ space = MINT_SIZE /\
      pid = TOKEN_PROGRAM_ID /\
      exists url, getMinimumBalanceForRentExemptMint w url = Ok lamports
  | InitializeMint mint d ma fa pid =>
      mint = mintKey /\ d = 9 /\ ma = signer /\ fa = signer /\
      pid = TOKEN_PROGRAM_ID
  | TransactionInstruction pid keys d =>
      pid = TOKEN_METADATA_PROGRAM_ID /\
      map pubkey (filter isSigner keys) = [signer; signer] /\
      args_isMutable d = true /\ args_collectionDetails d = None /\
      exists pda,
        findProgramAddressSync w ["metadata"; TOKEN_METADATA_PROGRAM_ID; mintKey]
                               TOKEN_METADATA_PROGRAM_ID = Ok pda /\
        map pubkey (filter isWritable keys) = [pda; signer]
  | CreateAssociatedTokenAccount payer account owner mint pid =>
      payer = signer /\ mint = mintKey /\ pid = TOKEN_PROGRAM_ID /\
      exists wallet,
        Req.userWallet (body req) = Some wallet /\
        newPublicKey w wallet = Ok owner /\
        getAssociatedTokenAddress w mintKey owner false TOKEN_PROGRAM_ID = Ok account
  | MintTo mint destination authority amount multiSigners pid =>
      mint = mintKey /\ authority = signer /\ multiSigners = [] /\
      pid = TOKEN_PROGRAM_ID /\
      exists wallet owner,
        Req.userWallet (body req) = Some wallet /\
        newPublicKey w wallet = Ok owner /\
        getAssociatedTokenAddress w mintKey owner false TOKEN_PROGRAM_ID =
          Ok destination
  end.

(** The transaction handed to [sign] holds the instructions added so far,
    is paid by the custodial signer and is signed by everyone the
    hand-assembled instruction asks a signature of. *)
Definition signedAsBuilt (w : World) (log : list Event) (n : TxName)
           (t : Transaction) : Prop :=
  instructions t = added n log /\
  exists secret backend,
    BACKEND_KEYPAIR_SECRET w = Some secret /\
    keypairFromSecret w secret = Ok backend /\
    feePayer t = Some (publicKey backend) /\
    signers t =
      match n with
      | Tx1 => [publicKey backend; publicKey (generate w)]
      | Tx2 => [publicKey backend]
      end /\
    forall i k, In i (instructions t) -> In k (requiredSigners i) -> In k (signers t).


(** What a 200 response of the two-phase route reports. *)
Definition successDetails (w : World) (req : NextApiRequest) : Prop :=
  Res.mintAddress (json (response w req)) = Some (publicKey (generate w)) /\
  Res.name (json (response w req)) = Req.name (body req) /\
  Res.prePurchaseAmount (json (response w req)) = Req.prePurchaseAmount (body req) /\
  (exists url sig bh lv,
      Res.signature (json (response w req)) = Some sig /\
      In (Confirm url Tx1 sig bh lv) (trace w req) /\
      confirmTransaction w url sig bh lv = Ok tt) /\
  (if Js.gt (Req.prePurchaseAmount (body req)) (Some 0%Q) then
     exists url sig bh lv wallet user account,
       Res.mintSignature (json (response w req)) = Some sig /\
       In (Confirm url Tx2 sig bh lv) (trace w req) /\
       confirmTransaction w url sig bh lv = Ok tt /\
       Req.userWallet (body req) = Some wallet /\
       newPublicKey w wallet = Ok user /\
       getAssociatedTokenAddress w (publicKey (generate w)) user false
                                 TOKEN_PROGRAM_ID = Ok account /\
       Res.userTokenAccount (json (response w req)) = Some account
   else
     Res.mintSignature (json (response w req)) = None /\
     Res.userTokenAccount (json (response w req)) = None /\
     added Tx2 (trace w req) = []).

(** An error text after classification. *)
Definition classifiedText (e : option ErrorText) : Prop :=
  exists s,
    e = Some (Text s) /\ s <> "" /\
    Js.includes "blockhash not found" s = false /\
    Js.includes "insufficient funds" s = false.

(** The amount of a mint-to is the requested positive integer times 10^9. *)
Definition scaledRequest (req : NextApiRequest) (a : Z) : Prop :=
  exists q n,
    Req.prePurchaseAmount (body req) = Some q /\
    (q == inject_Z n)%Q /\
    0 < n /\
    a = n * 10 ^ 9.

(** The two transactions of the two-phase route are the single transaction
    of the earlier route cut in two, each part behind its compute budget. *)
Definition splitPlan (w : World) (req : NextApiRequest) : Prop :=
  exists phase1 phase2,
    added Tx1 (trace w req) =
      SetComputeUnitLimit COMPUTE_UNIT_LIMIT
        :: SetComputeUnitPrice COMPUTE_UNIT_PRICE :: phase1 /\
    (added Tx2 (trace w req) = [] /\ phase2 = [] \/
     added Tx2 (trace w req) = SetComputeUnitLimit 200000 :: phase2) /\
    added Tx1 (V1.trace w req) = (phase1 ++ phase2)%list.

(** What the form has checked of a request it sends. *)
Definition checkedRequest (trim toUpperCase : string -> string)
           (parseFloat : string -> Form.Parsed) (connected : bool)
           (pk : option PublicKey) (f : Form.FormData) (url : string)
           (req : NextApiRequest) : Prop :=
  url = "/api/create-token" /\
  method req = "POST" /\
  connected = true /\
  pk <> None /\
  Req.userWallet (body req) = pk /\
  Req.name (body req) = Some (trim (Form.name f)) /\
  trim (Form.name f) <> "" /\
  Req.symbol (body req) = Some (toUpperCase (trim (Form.ticker f))) /\
  trim (Form.ticker f) <> "" /\
  (String.length (Form.ticker f) <= 10)%nat /\
  Req.description (body req) <> Some "" /\
  exists q,
    parseFloat (orElse (Some (Form.prePurchaseAmount f)) "0") = Form.Finite q /\
    Req.prePurchaseAmount (body req) = Some q /\
    (0 <= q)%Q /\ (q <= inject_Z MAX_PREPURCHASE_AMOUNT)%Q.

(** The balance guard of the earlier route, as for the two-phase one. *)
Definition balanceGuarded (w : World) (log : list Event) (r : HttpResponse) : Prop :=
  (forall l1 e l2,
      log = (l1 ++ e :: l2)%list ->
      isAdd e = true ->
      exists url secret backend lamports bal,
        BACKEND_KEYPAIR_SECRET w = Some secret /\
        keypairFromSecret w secret = Ok backend /\
        In (BalanceQuery url (publicKey backend)) l1 /\
        getMinimumBalanceForRentExemptMint w url = Ok lamports /\
        getBalance w url (publicKey backend) = Ok bal /\
        lamports + FEE_BUFFER <= bal) /\
  (forall url pk lamports bal,
      In (BalanceQuery url pk) log ->
      getMinimumBalanceForRentExemptMint w url = Ok lamports ->
      getBalance w url pk = Ok bal ->
      bal < lamports + FEE_BUFFER ->
      r = mkResponse 400 (Res.failure (InsufficientSol (lamports + FEE_BUFFER))) /\
      existsb isAdd log = false /\
      existsb isSubmit log = false).

(** A node whose submission fails on an expired blockhash. *)
Definition expiredNode : World :=
  Sample.withSend
    (fun _ _ => Throws (Js.mkError (Some "failed to send transaction: blockhash not found")))
    Sample.happy.

(** ** Limits set by the libraries *)


(** The amount of a mint-to instruction is written into an unsigned 64-bit
    field. *)
Definition U64_LIMIT : Z := 2 ^ 64.

Definition fitsU64 (a : Z) : Prop := 0 <= a < U64_LIMIT.



(** The smallest whole amount whose base units no longer fit 64 bits. *)
Definition overflowRequest : NextApiRequest :=
  Sample.post "Big Supply Token" "BIG" None (Some (inject_Z 18446744074)).

(** ** The course of a two-phase request *)

(** The events that belong to the second transaction. *)
Definition isPhase2 (e : Event) : bool :=
  match e with
  | Add Tx2 _ | Sign Tx2 _ | Submit _ Tx2 _ | Confirm _ Tx2 _ _ _ => true
  | _ => false
  end.

Definition isWait (e : Event) : bool :=
  match e with SetTimeout _ => true | _ => false end.

Definition isFetch (e : Event) : bool :=
  match e with BlockhashFetch _ => true | _ => false end.

(** A stretch of events that stays within phase 1: nothing of the second
    transaction, no wait, at most one blockhash fetch. *)
Definition phase1Only (log : list Event) : Prop :=
  existsb isPhase2 log = false /\
  existsb isWait log = false /\
  (List.length (filter isFetch log) <= 1)%nat.

(** * Properties *)

(** ** Facts about the JavaScript operations *)

Lemma substring_all (s : string) (n : nat) :
  (String.length s <= n)%nat -> substring 0 n s = s.
Proof.
  revert n. induction s as [|c s IH]; intros [|n] H; try reflexivity.
  - exfalso. change (S (String.length s) <= 0)%nat in H. lia.
  - change (S (String.length s) <= S n)%nat in H.
    change (String c (substring 0 n s) = String c s).
    f_equal. apply IH. lia.
Qed.

Lemma lt_zero_iff (q : Q) : Js.lt (Some q) (Some 0%Q) = true <-> (q < 0)%Q.
Proof.
  unfold Js.lt. rewrite Qlt_alt. destruct (q ?= 0)%Q; split; congruence.
Qed.

Lemma bigInt_of_integer (q : Q) (N : Z) : (q == inject_Z N)%Q -> Js.BigInt q = Some N.
Proof.
  unfold Qeq, Js.BigInt, Js.isInteger. cbn. rewrite Z.mul_1_r. intros ->.
  rewrite Z.rem_mul by discriminate. cbn. rewrite Z.quot_mul by discriminate.
  reflexivity.
Qed.

Lemma gt_zero_of_positive (q : Q) (N : Z) :
  (q == inject_Z N)%Q -> 0 < N -> Js.gt (Some q) (Some 0%Q) = true.
Proof.
  intros Hq HN. unfold Js.gt, Js.lt.
  destruct (Qcompare_spec 0 q) as [E|E|E]; try reflexivity; exfalso;
    rewrite Hq in E; [unfold Qeq in E | unfold Qlt in E]; cbn in E; lia.
Qed.

Lemma truthy_orElse (o : option string) (d : string) :
  Js.truthy o = true -> exists s, o = Some s /\ orElse o d = s.
Proof.
  destruct o as [s|]; cbn; [| discriminate].
  intros H. exists s. split; [reflexivity |].
  destruct (s =? "")%string; [discriminate | reflexivity].
Qed.

Lemma lt_undefined_zero : Js.lt None (Some 0%Q) = false.
Proof. reflexivity. Qed.

Lemma gt_undefined_zero : Js.gt None (Some 0%Q) = false.
Proof. reflexivity. Qed.

Lemma lt_zero_zero : Js.lt (Some 0%Q) (Some 0%Q) = false.
Proof. reflexivity. Qed.

Lemma gt_zero_zero : Js.gt (Some 0%Q) (Some 0%Q) = false.
Proof. reflexivity. Qed.

Lemma beforeFirstAdd_split (log l1 l2 : list Event) (e : Event) :
  log = (l1 ++ e :: l2)%list -> isAdd e = true ->
  exists pre, beforeFirstAdd log = Some pre /\ incl pre l1.
Proof.
  intros -> He. induction l1 as [|a l1 IH]; cbn.
  - rewrite He. exists []. split; [reflexivity | apply incl_nil_l].
  - destruct (isAdd a).
    + exists []. split; [reflexivity | apply incl_nil_l].
    + destruct IH as [pre [-> Hpre]]. exists (a :: pre). split; [reflexivity|].
      apply incl_cons; [now left | now apply incl_tl].
Qed.

(** ** Symbolic execution of the handler *)

(** The handler is run on a symbolic request by unfolding the monad and
    splitting on every test and every collaborator's answer; the operations
    on strings and numbers stay folded so that each split is on one source
    condition. *)

#[local] Arguments String.eqb : simpl never.
#[local] Arguments String.length : simpl never.
#[local] Arguments substring : simpl never.
#[local] Arguments Nat.ltb : simpl never.
#[local] Arguments Z.ltb : simpl never.
#[local] Arguments Z.add : simpl never.
#[local] Arguments Z.mul : simpl never.
#[local] Arguments Z.pow : simpl never.
#[local] Arguments Js.lt : simpl never.
#[local] Arguments Js.gt : simpl never.
#[local] Arguments Js.BigInt : simpl never.
#[local] Arguments Js.truthy : simpl never.
#[local] Arguments orElse : simpl never.
#[local] Arguments catchBlock : simpl never.

Create HintDb eff.
#[local] Hint Unfold handler tryBlock trace response bind await call emit
  respond ret addTo signWith bigInt : eff.

Ltac break_match :=
  match goal with
  | |- context [match ?x with _ => _ end] =>
      lazymatch x with
      | context [match _ with _ => _ end] => fail
      | _ => destruct x eqn:?
      end
  end.

(** The RPC endpoint is the same expression at every call; it is abstracted
    before the run. *)
Ltac abstract_url :=
  try match goal with
  | |- context [if (orElse (NEXT_PUBLIC_SOLANA_NETWORK ?w) ?d =? ?m)%string
                then ?a else ?b] =>
      generalize (if (orElse (NEXT_PUBLIC_SOLANA_NETWORK w) d =? m)%string
                  then a else b);
      intro
  end.

Ltac run :=
  autounfold with eff;
  rewrite ?String.eqb_refl, ?lt_undefined_zero, ?gt_undefined_zero,
          ?lt_zero_zero, ?gt_zero_zero;
  abstract_url;
  repeat (first [progress cbn | break_match]).

Ltac boolp :=
  repeat match goal with
  | H : (_ || _)%bool = false |- _ => apply orb_false_elim in H; destruct H
  | H : (_ <? _)%nat = true |- _ => apply Nat.ltb_lt in H
  | H : (_ <? _)%nat = false |- _ => apply Nat.ltb_ge in H
  | H : (_ <? _)%Z = true |- _ => apply Z.ltb_lt in H
  | H : (_ <? _)%Z = false |- _ => apply Z.ltb_ge in H
  end.

Ltac open_request req :=
  let m := fresh "m" in
  destruct req as [m [? ? ? ? ?]];
  cbn [method body Req.name Req.symbol Req.description
       Req.prePurchaseAmount Req.userWallet] in *;
  subst.

(** Membership in a trace that has been computed. *)
Ltac in_trace H :=
  cbn in H;
  repeat match type of H with
         | _ \/ _ => destruct H as [H|H]
         | False => contradiction
         | _ = _ => try discriminate H
         end.

Ltac find_in := repeat (first [left; reflexivity | right]).

(** Two answers of one collaborator to one call are the same answer. *)
Ltac same_call :=
  repeat match goal with
  | H1 : ?f = Ok _, H2 : ?f = Ok _ |- _ => rewrite H1 in H2; injection H2 as ->
  | H1 : ?f = Ok _, H2 : ?f = Throws _ |- _ => rewrite H1 in H2; discriminate H2
  | H1 : ?f = Throws _, H2 : ?f = Throws _ |- _ =>
      rewrite H1 in H2; injection H2 as ->
  end.

(** ** The scenarios of the specification *)

Example scenarioA_runs :
  status (response Sample.happy Sample.scenarioA) = 200%nat /\
  added Tx2 (trace Sample.happy Sample.scenarioA) =
    [ SetComputeUnitLimit 200000;
      CreateAssociatedTokenAccount "BackendPubkey" "UserTokenAccount"
        "UserWalletPubkey" "MintPubkey" TOKEN_PROGRAM_ID;
      MintTo "MintPubkey" "UserTokenAccount" "BackendPubkey" 1000000000000 []
        TOKEN_PROGRAM_ID ] /\
  submittedSizes (trace Sample.happy Sample.scenarioA) = [628%nat; 364%nat].
Proof. vm_compute. repeat split. Qed.

Example scenarioB_runs :
  response Sample.happy Sample.scenarioB =
    mkResponse 200
      (Res.mk true (Some "MintPubkey") (Some "No Mint Token") (Some "NOMINT")
         (Some "Token with no initial mint") (Some 0%Q) (Some "Sig1") None None
         None None) /\
  added Tx2 (trace Sample.happy Sample.scenarioB) = [].
Proof. vm_compute. repeat split. Qed.

Example scenarioC_runs :
  response Sample.happy Sample.scenarioC =
    mkResponse 400 (Res.failure (Text "Symbol must be 10 characters or less")).
Proof. reflexivity. Qed.

Example scenarioD_runs :
  response Sample.poor Sample.scenarioA =
    mkResponse 400 (Res.failure (InsufficientSol 11461600)) /\
  added Tx1 (trace Sample.poor Sample.scenarioA) = [].
Proof. vm_compute. repeat split. Qed.

(** ** Validation *)

(** C6. A POST request whose name is longer than 32 characters or whose
    symbol is longer than 10 characters is answered with HTTP 400 and
    [success = false], and the handler produces no event at all: in
    particular no balance query, blockhash fetch, submission or
    confirmation. *)
Theorem C6_overlong_name_or_symbol_rejected (w : World) (req : NextApiRequest) :
  method req = "POST" ->
  longer (Req.name (body req)) 32 = true \/ longer (Req.symbol (body req)) 10 = true ->
  status (response w req) = 400%nat /\
  Res.success (json (response w req)) = false /\
  trace w req = [] /\
  existsb isNetwork (trace w req) = false.
Proof.
  intros Hm Hlen. open_request req. run.
  all: try (repeat split; reflexivity).
  all: exfalso; unfold longer in Hlen; boolp;
       destruct Hlen as [H'|H']; try discriminate; boolp; lia.
Qed.

Lemma C6_overlong_symbol_witness :
  method Sample.scenarioC = "POST" /\
  (longer (Req.name (body Sample.scenarioC)) 32 = true \/
   longer (Req.symbol (body Sample.scenarioC)) 10 = true) /\
  status (response Sample.happy Sample.scenarioC) = 400%nat /\
  Res.success (json (response Sample.happy Sample.scenarioC)) = false /\
  trace Sample.happy Sample.scenarioC = [] /\
  existsb isNetwork (trace Sample.happy Sample.scenarioC) = false.
Proof.
  split; [reflexivity | split; [right; reflexivity |]].
  apply (C6_overlong_name_or_symbol_rejected Sample.happy Sample.scenarioC);
    [reflexivity | right; reflexivity].
Defined.

(** C3, as the handler has it.  A POST request whose prePurchaseAmount is
    negative is answered with HTTP 400 and [success = false] before anything
    else happens: no instruction is built and no collaborator is called. *)
Theorem C3_negative_amount_rejected (w : World) (req : NextApiRequest) (q : Q) :
  method req = "POST" ->
  Req.prePurchaseAmount (body req) = Some q ->
  (q < 0)%Q ->
  status (response w req) = 400%nat /\
  Res.success (json (response w req)) = false /\
  trace w req = [].
Proof.
  intros Hm Hq Hneg. apply lt_zero_iff in Hneg. open_request req. run.
  all: try (repeat split; reflexivity).
  all: congruence.
Qed.

Lemma C3_negative_amount_witness :
  method Sample.negativeRequest = "POST" /\
  Req.prePurchaseAmount (body Sample.negativeRequest) = Some (inject_Z (-1)) /\
  (inject_Z (-1) < 0)%Q /\
  status (response Sample.happy Sample.negativeRequest) = 400%nat /\
  Res.success (json (response Sample.happy Sample.negativeRequest)) = false /\
  trace Sample.happy Sample.negativeRequest = [].
Proof.
  split; [reflexivity | split; [reflexivity | split; [reflexivity |]]].
  apply (C3_negative_amount_rejected Sample.happy Sample.negativeRequest
           (inject_Z (-1))); reflexivity.
Defined.

(** C3, as stated, fails.  An amount of two billion, above
    MAX_PREPURCHASE_AMOUNT, is accepted and minted; an amount of 3/2 is not
    rejected by validation either: phase 1 is built and submitted, and the
    request ends in HTTP 500 when [BigInt] throws. *)
Lemma C3_unchecked_amounts_accepted :
  (Js.gt (Req.prePurchaseAmount (body Sample.overMaximumRequest))
         (Some (inject_Z MAX_PREPURCHASE_AMOUNT)) = true /\
   status (response Sample.happy Sample.overMaximumRequest) = 200%nat /\
   mintToAmounts (trace Sample.happy Sample.overMaximumRequest) =
     [2000000000 * 10 ^ 9]) /\
  (Js.isInteger (3 # 2)%Q = false /\
   status (response Sample.happy Sample.fractionalRequest) = 500%nat /\
   List.length (added Tx1 (trace Sample.happy Sample.fractionalRequest)) = 5%nat /\
   submittedSizes (trace Sample.happy Sample.fractionalRequest) = [628%nat]).
Proof. vm_compute. repeat split. Qed.

(** ** Balance pre-flight *)

Lemma balance_checked_before_first_add (w : World) (req : NextApiRequest)
      (pre : list Event) :
  beforeFirstAdd (trace w req) = Some pre ->
  exists url secret backend lamports bal,
    BACKEND_KEYPAIR_SECRET w = Some secret /\
    keypairFromSecret w secret = Ok backend /\
    In (BalanceQuery url (publicKey backend)) pre /\
    getMinimumBalanceForRentExemptMint w url = Ok lamports /\
    getBalance w url (publicKey backend) = Ok bal /\
    lamports + FEE_BUFFER <= bal.
Proof.
  open_request req. run.
  all: intros Hpre; try discriminate Hpre.
  all: injection Hpre as <-; boolp.
  all: match goal with
       | H : negb (Js.truthy (BACKEND_KEYPAIR_SECRET _)) = false |- _ =>
           apply negb_false_iff, truthy_orElse with (d := "") in H;
           destruct H as [secret [Hsecret Hor]]
       end.
  all: match goal with
       | H : keypairFromSecret _ _ = Ok ?kp |- _ =>
           rewrite Hor in H; eexists; exists secret, kp
       end.
  all: do 2 eexists;
       (split; [exact Hsecret
               | split; [eassumption
               | split; [cbn; find_in
               | split; [eassumption | split; [eassumption | assumption]]]]]).
Qed.

Lemma insufficient_balance_reported (w : World) (req : NextApiRequest)
      (url : string) (pk : PublicKey) (lamports bal : Z) :
  In (BalanceQuery url pk) (trace w req) ->
  getMinimumBalanceForRentExemptMint w url = Ok lamports ->
  getBalance w url pk = Ok bal ->
  bal < lamports + FEE_BUFFER ->
  response w req =
    mkResponse 400 (Res.failure (InsufficientSol (lamports + FEE_BUFFER))) /\
  existsb isAdd (trace w req) = false /\
  existsb isSubmit (trace w req) = false.
Proof.
  intros Hin Hrent Hbal Hlt. revert Hin. open_request req. run.
  all: intros Hin; in_trace Hin.
  all: injection Hin as <- <-.
  all: try congruence.
  all: boolp; same_call.
  all: try lia.
  all: repeat split.
Qed.

(** C7. For every request and every world: whenever an instruction is added
    to a transaction, the events before it contain the balance query for the
    custodial signer (the keypair decoded from BACKEND_KEYPAIR_SECRET), and
    the balance returned was at least the rent-exempt minimum plus the fee
    buffer; and when the balance queried is below that sum, the response is
    the insufficient-SOL failure, no instruction has been built and nothing
    has been submitted. *)
Theorem C7_balance_checked_before_building (w : World) (req : NextApiRequest) :
  (forall l1 e l2,
      trace w req = (l1 ++ e :: l2)%list ->
      isAdd e = true ->
      exists url secret backend lamports bal,
        BACKEND_KEYPAIR_SECRET w = Some secret /\
        keypairFromSecret w secret = Ok backend /\
        In (BalanceQuery url (publicKey backend)) l1 /\
        getMinimumBalanceForRentExemptMint w url = Ok lamports /\
        getBalance w url (publicKey backend) = Ok bal /\
        lamports + FEE_BUFFER <= bal) /\
  (forall url pk lamports bal,
      In (BalanceQuery url pk) (trace w req) ->
      getMinimumBalanceForRentExemptMint w url = Ok lamports ->
      getBalance w url pk = Ok bal ->
      bal < lamports + FEE_BUFFER ->
      response w req =
        mkResponse 400 (Res.failure (InsufficientSol (lamports + FEE_BUFFER))) /\
      existsb isAdd (trace w req) = false /\
      existsb isSubmit (trace w req) = false).
Proof.
  split.
  - intros l1 e l2 Hsplit He.
    destruct (beforeFirstAdd_split _ _ _ _ Hsplit He) as [pre [Hpre Hincl]].
    destruct (balance_checked_before_first_add w req pre Hpre)
      as (url & secret & backend & lamports & bal
          & Hsecret & Hkey & Hin & Hrent & Hbal & Hle).
    exists url, secret, backend, lamports, bal. repeat split; auto.
  - apply insufficient_balance_reported.
Qed.

Lemma C7_balance_check_witness :
  (exists url secret backend lamports bal,
      BACKEND_KEYPAIR_SECRET Sample.happy = Some secret /\
      keypairFromSecret Sample.happy secret = Ok backend /\
      In (BalanceQuery url (publicKey backend))
         (firstn 4 (trace Sample.happy Sample.scenarioA)) /\
      getMinimumBalanceForRentExemptMint Sample.happy url = Ok lamports /\
      getBalance Sample.happy url (publicKey backend) = Ok bal /\
      lamports + FEE_BUFFER <= bal) /\
  (response Sample.poor Sample.scenarioA =
     mkResponse 400 (Res.failure (InsufficientSol (1461600 + FEE_BUFFER))) /\
   existsb isAdd (trace Sample.poor Sample.scenarioA) = false /\
   existsb isSubmit (trace Sample.poor Sample.scenarioA) = false).
Proof.
  split.
  - apply (proj1 (C7_balance_checked_before_building Sample.happy Sample.scenarioA)
             (firstn 4 (trace Sample.happy Sample.scenarioA))
             (Add Tx1 (SetComputeUnitLimit COMPUTE_UNIT_LIMIT))
             (skipn 5 (trace Sample.happy Sample.scenarioA)));
      reflexivity.
  - apply (proj2 (C7_balance_checked_before_building Sample.poor Sample.scenarioA)
             Sample.devnet "BackendPubkey" 1461600 5000000).
    + vm_compute. find_in.
    + reflexivity.
    + reflexivity.
    + reflexivity.
Defined.

(** ** Size ceiling *)

(** The route's own test on the first transaction: whatever the serializer,
    a phase-1 submission carries at most 1232 bytes. *)
Lemma phase1_submission_within_ceiling (w : World) (req : NextApiRequest)
      (url : string) (wire : list byte) :
  In (Submit url Tx1 wire) (trace w req) ->
  (List.length wire <= MAX_TRANSACTION_SIZE)%nat.
Proof.
  open_request req. run.
  all: intros Hin; in_trace Hin.
  all: injection Hin as <- <-; boolp; same_call; assumption.
Qed.

Lemma split_here {A : Type} (x : A) (l : list A) : x :: l = ([] ++ x :: l)%list.
Proof. reflexivity. Qed.

Lemma split_later {A : Type} (a x : A) (l l1 l2 : list A) :
  l = (l1 ++ x :: l2)%list -> a :: l = ((a :: l1) ++ x :: l2)%list.
Proof. intros ->. reflexivity. Qed.

Ltac split_at := repeat first [apply split_here | apply split_later].






(** ** Phase 2 failing after phase 1 *)

(** C1, as the handler has it.  When phase 2 fails at submission or at
    confirmation, phase 1 has been confirmed, and the response is the one
    the [catch] builds from the error: HTTP 500, [success = false], an error
    text, and no mint address. *)
Theorem C1_phase2_failure_is_plain_failure (w : World) (req : NextApiRequest)
        (e : Js.Error) :
  phase2Fails w req e ->
  phase1Confirmed w req /\
  response w req = catchBlock e /\
  status (response w req) = 500%nat /\
  Res.success (json (response w req)) = false /\
  Res.mintAddress (json (response w req)) = None.
Proof.
  intros Hfail.
  assert (Hshape : forall r, r = catchBlock e ->
            r = catchBlock e /\ status r = 500%nat /\
            Res.success (json r) = false /\ Res.mintAddress (json r) = None)
    by (intros r ->; repeat split).
  enough (phase1Confirmed w req /\ response w req = catchBlock e) as [H1 H2]
    by (split; [exact H1 | apply Hshape, H2]).
  clear Hshape. unfold phase1Confirmed. revert Hfail. unfold phase2Fails.
  open_request req. run.
  all: intros [(url & wire & Hin & Hthrow) | (url & sig & bh & lv & Hin & Hthrow)];
       in_trace Hin.
  all: injection Hin; intros; subst; same_call.
  all: repeat match goal with u : unit |- _ => destruct u end.
  all: split; [do 4 eexists; split; [cbn; find_in | eassumption] | reflexivity].
Qed.

Lemma C1_phase2_unconfirmed_witness :
  phase2Fails Sample.phase2Unconfirmed Sample.scenarioA Sample.simulationFailed /\
  phase1Confirmed Sample.phase2Unconfirmed Sample.scenarioA /\
  response Sample.phase2Unconfirmed Sample.scenarioA =
    catchBlock Sample.simulationFailed /\
  status (response Sample.phase2Unconfirmed Sample.scenarioA) = 500%nat /\
  Res.success (json (response Sample.phase2Unconfirmed Sample.scenarioA)) = false /\
  Res.mintAddress (json (response Sample.phase2Unconfirmed Sample.scenarioA)) = None.
Proof.
  assert (Hfail : phase2Fails Sample.phase2Unconfirmed Sample.scenarioA
                              Sample.simulationFailed).
  { right. exists Sample.devnet, "Sig2", "Blockhash", 1001.
    split; [vm_compute; find_in | reflexivity]. }
  split; [exact Hfail |].
  exact (C1_phase2_failure_is_plain_failure Sample.phase2Unconfirmed
           Sample.scenarioA Sample.simulationFailed Hfail).
Defined.

(** C1, as stated, fails.  With phase 1 confirmed and the phase-2 submission
    rejected, the response carries no mint address, and it is the very
    response of a request whose phase 1 was rejected and whose mint was never
    created. *)
Lemma C1_partial_success_not_reported :
  phase1Confirmed Sample.phase2Rejected Sample.scenarioA /\
  phase2Fails Sample.phase2Rejected Sample.scenarioA Sample.simulationFailed /\
  Res.mintAddress (json (response Sample.phase2Rejected Sample.scenarioA)) = None /\
  response Sample.phase2Rejected Sample.scenarioA =
    mkResponse 500 (Res.failure (Text "Transaction simulation failed")) /\
  response Sample.phase2Rejected Sample.scenarioA =
    response Sample.phase1Rejected Sample.scenarioA.
Proof.
  split.
  { exists Sample.devnet, "Sig1", "Blockhash", 1000.
    split; [vm_compute; find_in | reflexivity]. }
  split.
  { left. exists Sample.devnet, (repeat x00 364).
    split; [vm_compute; find_in | reflexivity]. }
  vm_compute. repeat split.
Qed.

(** ** The minted amount *)

(** The argument handed to the mint-to factory, in unbounded integers. *)
Lemma mint_to_argument_exact (w : World) (req : NextApiRequest) (q : Q) (N : Z) :
  Req.prePurchaseAmount (body req) = Some q ->
  (q == inject_Z N)%Q ->
  0 < N ->
  decimals = TOKEN_DECIMALS /\
  (forall mint d ma fa p,
      In (InitializeMint mint d ma fa p) (added Tx1 (trace w req)) -> d = 9) /\
  (forall amount,
      In amount (mintToAmounts (trace w req)) ->
      amount = N * 10 ^ TOKEN_DECIMALS) /\
  (status (response w req) = 200%nat ->
   mintToAmounts (trace w req) = [N * 10 ^ TOKEN_DECIMALS]).
Proof.
  intros Hq Hint Hpos.
  pose proof (bigInt_of_integer q N Hint) as Hbig.
  pose proof (gt_zero_of_positive q N Hint Hpos) as Hgt.
  split; [reflexivity | split; [| split]].
  - open_request req. run.
    all: intros mint d ma fa p Hin; in_trace Hin.
    all: injection Hin; intros; subst; reflexivity.
  - open_request req. run.
    all: intros amount Hin; in_trace Hin.
    all: try congruence.
    all: injection Hbig as ->; subst; reflexivity.
  - open_request req. run.
    all: intros Hst; try discriminate Hst.
    all: try congruence.
    all: injection Hbig as ->; subst; reflexivity.
Qed.

(** C8, within the range of the amount field.  For a request whose
    prePurchaseAmount is the integer N > 0 with N * 10^9 below 2^64: the
    handler's decimals are TOKEN_DECIMALS = 9; every mint initialisation it
    builds uses 9 decimals; every mint-to it builds carries exactly
    N * 10^9, which fits the unsigned 64-bit amount field; and when the
    response is a 200, exactly one mint-to was built. *)
Theorem C8_mint_to_amount_within_u64 (w : World) (req : NextApiRequest)
        (q : Q) (N : Z) :
  Req.prePurchaseAmount (body req) = Some q ->
  (q == inject_Z N)%Q ->
  0 < N ->
  N * 10 ^ TOKEN_DECIMALS < U64_LIMIT ->
  decimals = TOKEN_DECIMALS /\
  (forall mint d ma fa p,
      In (InitializeMint mint d ma fa p) (added Tx1 (trace w req)) -> d = 9) /\
  (forall amount,
      In amount (mintToAmounts (trace w req)) ->
      amount = N * 10 ^ TOKEN_DECIMALS /\ fitsU64 amount) /\
  (status (response w req) = 200%nat ->
   mintToAmounts (trace w req) = [N * 10 ^ TOKEN_DECIMALS]).
Proof.
  intros Hq Hint Hpos Hfit.
  destruct (mint_to_argument_exact w req q N Hq Hint Hpos) as (Hd & Hinit & Hamt & Hok).
  split; [exact Hd | split; [exact Hinit | split; [| exact Hok]]].
  intros amount Hin. rewrite (Hamt amount Hin). split; [reflexivity |].
  unfold fitsU64. split; [| exact Hfit].
  unfold TOKEN_DECIMALS. lia.
Qed.

Lemma C8_within_u64_witness :
  Req.prePurchaseAmount (body Sample.scenarioA) = Some (inject_Z 1000) /\
  (inject_Z 1000 == inject_Z 1000)%Q /\
  0 < 1000 /\
  1000 * 10 ^ TOKEN_DECIMALS < U64_LIMIT /\
  status (response Sample.happy Sample.scenarioA) = 200%nat /\
  mintToAmounts (trace Sample.happy Sample.scenarioA) = [1000 * 10 ^ TOKEN_DECIMALS] /\
  fitsU64 (1000 * 10 ^ TOKEN_DECIMALS).
Proof.
  split; [reflexivity | split; [reflexivity | split; [reflexivity |]]].
  split; [reflexivity | split; [reflexivity |]].
  destruct (C8_mint_to_amount_within_u64 Sample.happy Sample.scenarioA
              (inject_Z 1000) 1000 eq_refl (Qeq_refl _) eq_refl eq_refl)
    as (_ & _ & Hamt & Hok).
  split; [exact (Hok eq_refl) |].
  apply (Hamt (1000 * 10 ^ TOKEN_DECIMALS)).
  rewrite (Hok eq_refl). left. reflexivity.
Defined.

(** C8, as stated, fails.  The amount 18446744074 is accepted and answered
    with a 200, and the mint-to is built for 18446744074 * 10^9, which is
    not below 2^64: no value of the 64-bit amount field equals it. *)
Lemma C8_amount_exceeds_u64 :
  status (response Sample.happy overflowRequest) = 200%nat /\
  mintToAmounts (trace Sample.happy overflowRequest) = [18446744074 * 10 ^ 9] /\
  ~ fitsU64 (18446744074 * 10 ^ 9) /\
  (forall v, fitsU64 v -> v <> 18446744074 * 10 ^ 9).
Proof.
  split; [vm_compute; reflexivity | split; [vm_compute; reflexivity |]].
  unfold fitsU64, U64_LIMIT. split.
  - intros [_ H]. vm_compute in H. discriminate H.
  - intros v [_ Hv] ->. vm_compute in Hv. discriminate Hv.
Qed.

(** ** An omitted amount *)

(** C9. For a request that leaves prePurchaseAmount out: both the [< 0] test
    and the [> 0] guard are false on the absent amount; the handler does
    what it does for the same request with amount 0 (same events, same
    response but for the echoed amount); the response is not the
    negative-amount rejection; no phase-2 instruction is built and no phase-2
    submission made; the response has neither a second signature nor a
    funded-account address; and once phase 1 is confirmed the response is a
    200 success carrying the phase-1 signature. *)
Theorem C9_omitted_amount_is_single_phase (w : World) (req : NextApiRequest) :
  Req.prePurchaseAmount (body req) = None ->
  Js.lt (Req.prePurchaseAmount (body req)) (Some 0%Q) = false /\
  Js.gt (Req.prePurchaseAmount (body req)) (Some 0%Q) = false /\
  trace w req = trace w (withAmount (Some 0%Q) req) /\
  response w req = eraseAmount (response w (withAmount (Some 0%Q) req)) /\
  response w req <>
    mkResponse 400 (Res.failure (Text "Pre-purchase amount cannot be negative")) /\
  added Tx2 (trace w req) = [] /\
  existsb (isSubmitOf Tx2) (trace w req) = false /\
  Res.mintSignature (json (response w req)) = None /\
  Res.userTokenAccount (json (response w req)) = None /\
  (forall url sig bh lv,
      In (Confirm url Tx1 sig bh lv) (trace w req) ->
      confirmTransaction w url sig bh lv = Ok tt ->
      status (response w req) = 200%nat /\
      Res.success (json (response w req)) = true /\
      Res.signature (json (response w req)) = Some sig).
Proof.
  intros Hnone. rewrite Hnone. split; [reflexivity | split; [reflexivity |]].
  open_request req. unfold withAmount, eraseAmount, trace, response.
  cbn [method body Req.name Req.symbol Req.description
       Req.prePurchaseAmount Req.userWallet].
  match goal with
  | |- context [handler w ?r0] =>
      lazymatch r0 with
      | context [Some 0%Q] => destruct (handler w r0) as [t0 r0'] eqn:H0
      end
  end.
  match goal with
  | |- context [handler w ?r1] => destruct (handler w r1) as [t1 r1'] eqn:H1
  end.
  revert H0 H1. run.
  all: intros H0 H1; injection H0 as <- <-; injection H1 as <- <-; cbn.
  all: repeat match goal with |- _ /\ _ => split end.
  all: try reflexivity.
  all: try discriminate.
  all: try (intros url sig bh lv Hin Hok; in_trace Hin).
  all: try (injection Hin; intros; subst; same_call).
  all: try (repeat split; reflexivity).
Qed.

Lemma C9_omitted_amount_witness :
  Req.prePurchaseAmount (body Sample.omittedAmountRequest) = None /\
  response Sample.happy Sample.omittedAmountRequest =
    mkResponse 200
      (Res.mk true (Some "MintPubkey") (Some "Test Token") (Some "TEST")
         (Some "A test token") None (Some "Sig1") None None None None) /\
  added Tx2 (trace Sample.happy Sample.omittedAmountRequest) = [] /\
  Res.userTokenAccount (json (response Sample.happy Sample.omittedAmountRequest)) = None.
Proof.
  split; [reflexivity | split; [vm_compute; reflexivity |]].
  destruct (C9_omitted_amount_is_single_phase Sample.happy
              Sample.omittedAmountRequest eq_refl)
    as (_ & _ & _ & _ & _ & Hno2 & _ & _ & Hacct & _).
  split; [exact Hno2 | exact Hacct].
Defined.

(** ** Description and symbol *)

(** C10. Every metadata payload the handler builds has the empty uri; the
    events of a run (the instructions built, the bytes submitted, every call
    made) do not depend on the description; and a 200 response returns the
    description exactly as it was received. *)
Theorem C10_description_has_no_on_chain_effect (w : World) (req : NextApiRequest) :
  (forall d, In d (metadataBuilt (trace w req)) -> data_uri d = "") /\
  (forall d', trace w (withDescription d' req) = trace w req) /\
  (status (response w req) = 200%nat ->
   Res.description (json (response w req)) = Req.description (body req)).
Proof.
  split; [| split].
  - open_request req. run.
    all: intros d Hin; in_trace Hin; subst d; reflexivity.
  - intros d'. open_request req. unfold withDescription, trace.
    cbn [method body Req.name Req.symbol Req.description
         Req.prePurchaseAmount Req.userWallet].
    match goal with
    | |- fst ?h1 = fst ?h2 =>
        destruct h1 as [t1 r1] eqn:H1; destruct h2 as [t2 r2] eqn:H2
    end.
    revert H1 H2. run.
    all: intros H1 H2; injection H1 as <- <-; injection H2 as <- <-; reflexivity.
  - open_request req. run.
    all: intros Hst; try discriminate Hst; reflexivity.
Qed.

Lemma C10_description_witness :
  status (response Sample.happy Sample.longDescriptionRequest) = 200%nat /\
  Res.description (json (response Sample.happy Sample.longDescriptionRequest)) =
    Some Sample.longDescription /\
  trace Sample.happy (withDescription None Sample.longDescriptionRequest) =
    trace Sample.happy Sample.longDescriptionRequest /\
  map data_uri (metadataBuilt (trace Sample.happy Sample.longDescriptionRequest)) = [""].
Proof.
  destruct (C10_description_has_no_on_chain_effect Sample.happy
              Sample.longDescriptionRequest) as (_ & Hsame & Hecho).
  split; [reflexivity |].
  split; [exact (Hecho eq_refl) |].
  split; [exact (Hsame None) | reflexivity].
Defined.

(** C5, as the handler has it.  The symbol of every metadata payload built,
    and the symbol returned in a 200 response, is the symbol of the request,
    unchanged. *)
Theorem C5_symbol_passed_through_unchanged (w : World) (req : NextApiRequest) :
  (forall d, In d (metadataBuilt (trace w req)) ->
             Some (data_symbol d) = Req.symbol (body req)) /\
  (status (response w req) = 200%nat ->
   Res.symbol (json (response w req)) = Req.symbol (body req)).
Proof.
  split.
  - open_request req. run.
    all: intros d Hin; in_trace Hin; subst d; cbn; boolp.
    all: f_equal; apply substring_all; assumption.
  - open_request req. run.
    all: intros Hst; try discriminate Hst; reflexivity.
Qed.

Lemma C5_symbol_witness :
  status (response Sample.happy Sample.lowerCaseRequest) = 200%nat /\
  Res.symbol (json (response Sample.happy Sample.lowerCaseRequest)) = Some "test".
Proof.
  split; [reflexivity |].
  exact (proj2 (C5_symbol_passed_through_unchanged Sample.happy
                  Sample.lowerCaseRequest) eq_refl).
Defined.

(** C5, as stated, fails.  The symbol "test" is accepted, and both the
    metadata payload and the response carry "test", not its upper-case form
    "TEST". *)
Lemma C5_symbol_not_upper_cased :
  Js.toUpperCase "test" = "TEST" /\
  status (response Sample.happy Sample.lowerCaseRequest) = 200%nat /\
  Res.symbol (json (response Sample.happy Sample.lowerCaseRequest)) <>
    Some (Js.toUpperCase "test") /\
  map data_symbol (metadataBuilt (trace Sample.happy Sample.lowerCaseRequest)) =
    ["test"].
Proof.
  split; [reflexivity | split; [reflexivity | split; [| reflexivity]]].
  vm_compute. discriminate.
Qed.

(** C4 at a description of 201 characters.  The request is accepted and the
    response carries the warning that the description was truncated to 200
    characters, yet the description it returns is the full 201 characters,
    not the first 200. *)
Theorem C4_long_description_not_truncated :
  String.length Sample.longDescription = 201%nat /\
  status (response Sample.happy Sample.longDescriptionRequest) = 200%nat /\
  Res.warnings (json (response Sample.happy Sample.longDescriptionRequest)) =
    Some [truncationWarning] /\
  Res.description (json (response Sample.happy Sample.longDescriptionRequest)) =
    Some Sample.longDescription /\
  Res.description (json (response Sample.happy Sample.longDescriptionRequest)) <>
    Some (substring 0 200 Sample.longDescription).
Proof.
  split; [reflexivity | split; [reflexivity | split; [reflexivity |]]].
  split; [reflexivity |].
  vm_compute. discriminate.
Qed.

(** * Further properties of the two routes and the form *)

#[local] Hint Unfold V1.handler V1.tryBlock V1.trace V1.response : eff.

(** ** Auxiliary facts *)

Lemma orElse_nonempty (o : option string) (d : string) : d <> "" -> orElse o d <> "".
Proof.
  intros Hd. unfold orElse. destruct o as [s|]; [| exact Hd].
  destruct (s =? "")%string eqn:E; [exact Hd |].
  intros ->. discriminate E.
Qed.

Lemma orElse_some (s d : string) : s <> "" -> orElse (Some s) d = s.
Proof.
  intros Hs. unfold orElse.
  destruct (String.eqb_spec s ""); [contradiction | reflexivity].
Qed.

Lemma catchBlock_shape (e : Js.Error) :
  exists s,
    catchBlock e = mkResponse 500 (Res.failure (Text s)) /\
    s <> "" /\
    Js.includes "blockhash not found" s = false /\
    Js.includes "insufficient funds" s = false.
Proof.
  unfold catchBlock. destruct e as [[m|]]; cbn [Js.message].
  - destruct (Js.includes "blockhash not found" m) eqn:E1.
    { eexists. split; [reflexivity |]. repeat split; discriminate. }
    destruct (Js.includes "insufficient funds" m) eqn:E2.
    { eexists. split; [reflexivity |]. repeat split; discriminate. }
    destruct (Js.includes "Transaction too large" m) eqn:E3.
    { eexists. split; [reflexivity |]. repeat split; discriminate. }
    eexists. split; [reflexivity |].
    split; [apply orElse_nonempty; discriminate |].
    unfold orElse. destruct (m =? "")%string; [split; reflexivity | split; assumption].
  - eexists. split; [reflexivity |]. repeat split; discriminate.
Qed.

Lemma catchBlock_failure (e : Js.Error) :
  status (catchBlock e) = 500%nat /\
  Res.success (json (catchBlock e)) = false /\
  nonEmptyError (Res.error (json (catchBlock e))) /\
  carriesNoData (json (catchBlock e)).
Proof.
  destruct (catchBlock_shape e) as (s & -> & Hs & _).
  repeat split. exact Hs.
Qed.

Lemma V1_catchBlock_failure (e : Js.Error) :
  status (V1.catchBlock e) = 500%nat /\
  Res.success (json (V1.catchBlock e)) = false /\
  nonEmptyError (Res.error (json (V1.catchBlock e))) /\
  carriesNoData (json (V1.catchBlock e)).
Proof.
  unfold V1.catchBlock. repeat split. cbn. apply orElse_nonempty. discriminate.
Qed.

Lemma long_is_nonempty (d : string) :
  negb (d =? "")%string && (200 <? String.length d)%nat = (200 <? String.length d)%nat.
Proof.
  destruct (String.eqb_spec d "") as [-> | _]; reflexivity.
Qed.

Lemma bigInt_of_fraction (q : Q) : Js.isInteger q = false -> Js.BigInt q = None.
Proof. unfold Js.BigInt. now intros ->. Qed.

Lemma fraction_is_positive (q : Q) :
  Js.isInteger q = false ->
  Js.lt (Some q) (Some 0%Q) = false ->
  Js.gt (Some q) (Some 0%Q) = true.
Proof.
  unfold Js.isInteger, Js.gt, Js.lt. intros Hfrac Hlt.
  rewrite <- Qcompare_antisym.
  destruct (Qcompare_spec q 0) as [E | E | E]; try reflexivity; try discriminate.
  exfalso. unfold Qeq in E. cbn in E. rewrite Z.mul_1_r in E.
  rewrite E in Hfrac. rewrite Z.rem_0_l in Hfrac by discriminate. discriminate.
Qed.

Lemma bigInt_exact (q : Q) (n : Z) : Js.BigInt q = Some n -> (q == inject_Z n)%Q.
Proof.
  unfold Js.BigInt, Js.isInteger.
  destruct (Z.eqb_spec (Z.rem (Qnum q) (Z.pos (Qden q))) 0) as [E|E]; [| discriminate].
  intros H. injection H as <-. unfold Qeq. cbn. rewrite Z.mul_1_r.
  pose proof (Z.quot_rem' (Qnum q) (Z.pos (Qden q))) as Hqr. rewrite E in Hqr.
  rewrite Z.add_0_r in Hqr. rewrite Z.mul_comm. exact Hqr.
Qed.

Lemma gt_zero_iff (q : Q) : Js.gt (Some q) (Some 0%Q) = true <-> (0 < q)%Q.
Proof.
  unfold Js.gt, Js.lt. rewrite Qlt_alt. destruct (0 ?= q)%Q; split; congruence.
Qed.

Lemma endpointOf_cases (w : World) :
  (NEXT_PUBLIC_SOLANA_NETWORK w = Some "mainnet-beta" /\
   endpointOf w =
     orElse (NEXT_PUBLIC_RPC_ENDPOINT w) "https://api.mainnet-beta.solana.com") \/
  (NEXT_PUBLIC_SOLANA_NETWORK w <> Some "mainnet-beta" /\
   endpointOf w = "https://api.devnet.solana.com").
Proof.
  unfold endpointOf.
  destruct (NEXT_PUBLIC_SOLANA_NETWORK w) as [s|].
  - destruct (String.eqb_spec s "") as [-> | Hs].
    + right. split; [discriminate | reflexivity].
    + rewrite (orElse_some s "devnet" Hs).
      destruct (String.eqb_spec s "mainnet-beta") as [-> | Hm].
      * left. split; reflexivity.
      * right. split; [congruence | reflexivity].
  - right. split; [discriminate | reflexivity].
Qed.

(** The tests passed on the way to the first effect, as propositions. *)
Ltac accept_inputs :=
  boolp;
  repeat match goal with
  | H : negb (_ =? _)%string = false |- _ =>
      apply negb_false_iff, String.eqb_eq in H
  | H : (_ =? "")%string = false |- _ => apply String.eqb_neq in H
  | H : negb (Js.truthy (BACKEND_KEYPAIR_SECRET _)) = false |- _ =>
      apply negb_false_iff, truthy_orElse with (d := "") in H;
      let secret := fresh "secret" in
      let Hs := fresh "Hsecret" in
      let Ho := fresh "Hor" in
      destruct H as [secret [Hs Ho]]; rewrite Ho in *
  end.

Ltac by_catchBlock :=
  match goal with
  | |- context [catchBlock ?x] =>
      let txt := fresh "txt" in
      let H1 := fresh in
      let H2 := fresh in
      let H3 := fresh in
      destruct (catchBlock_shape x) as (txt & -> & H1 & H2 & H3)
  end.

(** ** Rejections and the shape of responses *)

(** X1. A POST request in which name, symbol or userWallet is absent or
    empty gets the missing-fields 400 from both routes, with no event; the
    earlier route also answers 400 with no event when the symbol is longer
    than 10 characters or the amount is negative. *)
Theorem input_rejections (w : World) (req : NextApiRequest) :
  method req = "POST" ->
  (Js.truthy (Req.name (body req)) = false \/
   Js.truthy (Req.symbol (body req)) = false \/
   Js.truthy (Req.userWallet (body req)) = false ->
   handler w req =
     ([], mkResponse 400
            (Res.failure (Text "Missing required fields: name, symbol, or userWallet"))) /\
   V1.handler w req =
     ([], mkResponse 400
            (Res.failure (Text "Missing required fields: name, symbol, or userWallet")))) /\
  (longer (Req.symbol (body req)) 10 = true \/
   Js.lt (Req.prePurchaseAmount (body req)) (Some 0%Q) = true ->
   status (V1.response w req) = 400%nat /\ V1.trace w req = []).
Proof.
  intros Hm. open_request req. split; [intros Hmiss; split | intros Hbad].
  - run. all: try reflexivity.
    all: exfalso; boolp; unfold Js.truthy in Hmiss;
      repeat match goal with H : (_ =? _)%string = false |- _ => rewrite H in Hmiss end;
      cbn in Hmiss; intuition discriminate.
  - run. all: try reflexivity.
    all: exfalso; boolp; unfold Js.truthy in Hmiss;
      repeat match goal with H : (_ =? _)%string = false |- _ => rewrite H in Hmiss end;
      cbn in Hmiss; intuition discriminate.
  - run. all: try (split; reflexivity).
    all: exfalso; unfold longer in Hbad; destruct Hbad as [H' | H'];
         try discriminate; boolp; try lia; congruence.
Qed.

Lemma input_rejections_witness :
  (handler Sample.happy Cases.emptyNameRequest =
     ([], mkResponse 400
            (Res.failure (Text "Missing required fields: name, symbol, or userWallet"))) /\
   V1.handler Sample.happy Cases.emptyNameRequest =
     ([], mkResponse 400
            (Res.failure (Text "Missing required fields: name, symbol, or userWallet")))) /\
  (status (V1.response Sample.happy Sample.scenarioC) = 400%nat /\
   V1.trace Sample.happy Sample.scenarioC = []).
Proof.
  split.
  - apply (proj1 (input_rejections Sample.happy Cases.emptyNameRequest eq_refl)).
    left. reflexivity.
  - apply (proj2 (input_rejections Sample.happy Sample.scenarioC eq_refl)).
    left. reflexivity.
Defined.

(** X2. A route that has produced any event at all has accepted the whole
    input: the method is POST, name and symbol are present, non-empty and
    within their limits (the earlier route has none on the name), the amount
    is not negative, the backend secret is set and decodes, and the user
    wallet parses. *)
Theorem validation_precedes_effects (w : World) (req : NextApiRequest) :
  (trace w req <> [] -> inputsAccepted (Some 32%nat) w req) /\
  (V1.trace w req <> [] -> inputsAccepted None w req).
Proof.
  unfold inputsAccepted.
  split; open_request req; run.
  all: intros Hne; try (exfalso; apply Hne; reflexivity).
  all: accept_inputs.
  all: split; [assumption |].
  all: do 6 eexists; repeat (split; [first [reflexivity | eassumption | exact I] |]);
       eassumption.
Qed.

Lemma validation_precedes_effects_witness :
  (trace Sample.happy Sample.scenarioA <> [] /\
   inputsAccepted (Some 32%nat) Sample.happy Sample.scenarioA) /\
  (V1.trace Sample.happy Cases.longNameRequest <> [] /\
   inputsAccepted None Sample.happy Cases.longNameRequest).
Proof.
  assert (H2 : trace Sample.happy Sample.scenarioA <> [])
    by (vm_compute; discriminate).
  assert (H1 : V1.trace Sample.happy Cases.longNameRequest <> [])
    by (vm_compute; discriminate).
  split; (split; [assumption |]).
  - exact (proj1 (validation_precedes_effects Sample.happy Sample.scenarioA) H2).
  - exact (proj2 (validation_precedes_effects Sample.happy Cases.longNameRequest) H1).
Defined.

(** X3. Every response of either route is either a 200 with
    [success = true], no error and a mint address, name, symbol and
    signature, or a 400, 405 or 500 with [success = false], a non-empty
    error text and no other field. *)
Theorem response_well_formed (w : World) (req : NextApiRequest) :
  wellFormed (response w req) /\ wellFormed (V1.response w req).
Proof.
  split; open_request req; run; unfold wellFormed.
  all: try (left; repeat split; discriminate).
  all: try solve [right; split; [auto | repeat split; cbn; try discriminate; exact I]].
  all: try solve [right;
                  match goal with
                  | |- context [catchBlock ?x] =>
                      pose proof (catchBlock_failure x) as (H1 & H2 & H3 & H4)
                  | |- context [V1.catchBlock ?x] =>
                      pose proof (V1_catchBlock_failure x) as (H1 & H2 & H3 & H4)
                  end; auto 6].
Qed.

(** X4. The error text of a 500 from the two-phase route is never empty and
    never contains the raw fragments "blockhash not found" or
    "insufficient funds": a message holding one of them has been replaced by
    the route's own wording. *)
Theorem failure_text_is_classified (w : World) (req : NextApiRequest) :
  status (response w req) = 500%nat ->
  classifiedText (Res.error (json (response w req))).
Proof.
  unfold classifiedText. open_request req. run.
  all: intros Hst; try discriminate Hst.
  all: try (eexists; split; [reflexivity | repeat split; discriminate]).
  all: by_catchBlock; eexists; split; [reflexivity | repeat split; assumption].
Qed.

Lemma failure_text_is_classified_witness :
  status (response expiredNode Sample.scenarioA) = 500%nat /\
  classifiedText (Res.error (json (response expiredNode Sample.scenarioA))).
Proof.
  split; [reflexivity |].
  apply (failure_text_is_classified expiredNode Sample.scenarioA). reflexivity.
Defined.

(** X5. The advisory warning is present exactly in a 200 response to a
    request whose description is longer than 200 characters; a rejected or
    failed request loses it. *)
Theorem warnings_only_with_success (w : World) (req : NextApiRequest) :
  Res.warnings (json (response w req)) =
    if (status (response w req) =? 200)%nat && longer (Req.description (body req)) 200
    then Some [truncationWarning] else None.
Proof.
  destruct req as [m [nm sy [d|] am uw]]; unfold longer.
  all: autounfold with eff;
       cbn [method body Req.name Req.symbol Req.description
            Req.prePurchaseAmount Req.userWallet snd fst];
       rewrite ?long_is_nonempty; run.
  all: try reflexivity.
  all: by_catchBlock; try reflexivity.
  all: match goal with
       | H : (_ && _)%bool = true |- _ => cbn in H; discriminate H
       end.
Qed.

(** ** Ordering of the phases *)



(** X7. A run of the two-phase route either stays within phase 1 (no
    event of the second transaction, no wait, at most one blockhash fetch),
    or the amount is above zero and its trace reads: a stretch within
    phase 1, then the phase-1 confirmation, which returned, then the
    one-second wait, then the second blockhash fetch, then the rest.  So
    everything of phase 2 comes after the wait, and the wait after the
    confirmation of phase 1. *)
Theorem phase2_only_after_phase1_confirmed (w : World) (req : NextApiRequest) :
  phase1Only (trace w req) \/
  (Js.gt (Req.prePurchaseAmount (body req)) (Some 0%Q) = true /\
   exists pre url sig bh lv rest,
     trace w req =
       (pre ++ Confirm url Tx1 sig bh lv
            :: SetTimeout 1000 :: BlockhashFetch url :: rest)%list /\
     confirmTransaction w url sig bh lv = Ok tt /\
     phase1Only pre).
Proof.
  unfold phase1Only. open_request req. run.
  all: repeat match goal with u : unit |- _ => destruct u end.
  all: first
         [ solve [left; repeat split; cbn; lia]
         | right; split; [reflexivity |];
           do 6 eexists;
           split; [split_at | split; [eassumption | repeat split; cbn; lia]] ].
Qed.

Lemma phase2_only_after_phase1_confirmed_witness :
  Js.gt (Req.prePurchaseAmount (body Sample.scenarioA)) (Some 0%Q) = true /\
  exists pre url sig bh lv rest,
    trace Sample.phase2Rejected Sample.scenarioA =
      (pre ++ Confirm url Tx1 sig bh lv
           :: SetTimeout 1000 :: BlockhashFetch url :: rest)%list /\
    confirmTransaction Sample.phase2Rejected url sig bh lv = Ok tt /\
    phase1Only pre.
Proof.
  destruct (phase2_only_after_phase1_confirmed Sample.phase2Rejected Sample.scenarioA)
    as [(_ & Hwait & _) | H].
  - vm_compute in Hwait. discriminate Hwait.
  - exact H.
Defined.

(** X8. A 200 from the two-phase route reports the generated mint key as
    mint address, echoes name and amount, and carries the phase-1 signature
    of a confirmation that returned; for an amount above zero it also carries
    the signature of a phase-2 confirmation that returned and the associated
    account derived for the generated mint and the parsed user wallet; for
    any other amount it has neither and no phase-2 instruction was built. *)
Theorem success_means_confirmed (w : World) (req : NextApiRequest) :
  status (response w req) = 200%nat ->
  successDetails w req.
Proof.
  unfold successDetails. open_request req. run.
  all: intros Hst; try discriminate Hst.
  all: repeat match goal with u : unit |- _ => destruct u end.
  all: split; [reflexivity | split; [reflexivity | split; [reflexivity | split]]].
  all: try (do 4 eexists; split; [reflexivity | split; [cbn; find_in | eassumption]]).
  all: try (repeat split; reflexivity).
  all: do 7 eexists; split; [reflexivity | split; [cbn; find_in |]].
  all: repeat (split; [first [reflexivity | eassumption] |]); reflexivity.
Qed.

Lemma success_means_confirmed_witness :
  status (response Sample.happy Sample.scenarioA) = 200%nat /\
  successDetails Sample.happy Sample.scenarioA.
Proof.
  split; [reflexivity |].
  apply (success_means_confirmed Sample.happy Sample.scenarioA). reflexivity.
Defined.

(** X9. A request costs at most eight network round trips in the two-phase
    route (five when the amount is not above zero) and at most five in the
    earlier route; no transaction is submitted twice. *)
Theorem round_trips_bounded (w : World) (req : NextApiRequest) :
  (List.length (filter isNetwork (trace w req)) <= 8)%nat /\
  (Js.gt (Req.prePurchaseAmount (body req)) (Some 0%Q) = false ->
   List.length (filter isNetwork (trace w req)) <= 5)%nat /\
  (List.length (filter (isSubmitOf Tx1) (trace w req)) <= 1)%nat /\
  (List.length (filter (isSubmitOf Tx2) (trace w req)) <= 1)%nat /\
  (List.length (filter isNetwork (V1.trace w req)) <= 5)%nat /\
  (List.length (filter isSubmit (V1.trace w req)) <= 1)%nat.
Proof.
  split; [| split; [| split; [| split; [| split]]]]; open_request req; run.
  all: try (intros Hgt; try discriminate Hgt).
  all: cbn; lia.
Qed.

Lemma round_trips_bounded_witness :
  List.length (filter isNetwork (trace Sample.happy Sample.scenarioA)) = 8%nat /\
  Js.gt (Req.prePurchaseAmount (body Sample.scenarioB)) (Some 0%Q) = false /\
  (List.length (filter isNetwork (trace Sample.happy Sample.scenarioB)) <= 5)%nat.
Proof.
  split; [reflexivity | split; [reflexivity |]].
  destruct (round_trips_bounded Sample.happy Sample.scenarioB) as (_ & H & _).
  apply H. reflexivity.
Defined.

(** X10. Every network call of a request goes to one endpoint: the devnet
    URL unless NEXT_PUBLIC_SOLANA_NETWORK is exactly "mainnet-beta" (a
    configured NEXT_PUBLIC_RPC_ENDPOINT is ignored then), and on
    "mainnet-beta" the configured endpoint or, without one, the public
    mainnet URL. *)
Theorem endpoint_selection (w : World) (req : NextApiRequest) (e : Event) (u : string) :
  In e (trace w req) \/ In e (V1.trace w req) ->
  eventUrl e = Some u ->
  (NEXT_PUBLIC_SOLANA_NETWORK w = Some "mainnet-beta" /\
   u = orElse (NEXT_PUBLIC_RPC_ENDPOINT w) "https://api.mainnet-beta.solana.com") \/
  (NEXT_PUBLIC_SOLANA_NETWORK w <> Some "mainnet-beta" /\
   u = "https://api.devnet.solana.com").
Proof.
  intros Hin Hu.
  enough (Heq : u = endpointOf w) by (rewrite Heq; apply endpointOf_cases).
  unfold endpointOf. destruct Hin as [Hin | Hin]; revert Hin Hu; open_request req; run.
  all: intros Hin Hu; in_trace Hin; subst e; cbn in Hu; congruence.
Qed.

Lemma endpoint_selection_witness :
  In (BalanceQuery "https://api.devnet.solana.com" "BackendPubkey")
     (trace Cases.devnetWithEndpoint Sample.scenarioA) /\
  NEXT_PUBLIC_RPC_ENDPOINT Cases.devnetWithEndpoint = Some "https://rpc.example.org" /\
  ((NEXT_PUBLIC_SOLANA_NETWORK Cases.devnetWithEndpoint = Some "mainnet-beta" /\
    "https://api.devnet.solana.com" =
      orElse (NEXT_PUBLIC_RPC_ENDPOINT Cases.devnetWithEndpoint)
             "https://api.mainnet-beta.solana.com") \/
   (NEXT_PUBLIC_SOLANA_NETWORK Cases.devnetWithEndpoint <> Some "mainnet-beta" /\
    "https://api.devnet.solana.com" = "https://api.devnet.solana.com")).
Proof.
  assert (Hin : In (BalanceQuery "https://api.devnet.solana.com" "BackendPubkey")
                   (trace Cases.devnetWithEndpoint Sample.scenarioA))
    by (vm_compute; find_in).
  split; [exact Hin | split; [reflexivity |]].
  exact (endpoint_selection Cases.devnetWithEndpoint Sample.scenarioA _ _
           (or_introl Hin) eq_refl).
Defined.

(** ** What is built and signed *)

(** X11. Every instruction either route adds is aimed as it should be: the
    mint account is the generated key, created with MINT_SIZE bytes and
    exactly the rent-exempt minimum the node returned, paid by the custodial
    signer; the mint has 9 decimals and the custodial signer as mint and
    freeze authority; the metadata instruction is mutable, asks only the
    custodial signer to sign and writes only the derived metadata address
    and the payer; the associated account and the mint-to use the address
    derived for the generated mint and the parsed user wallet. *)
Theorem instructions_well_targeted (w : World) (req : NextApiRequest)
        (n : TxName) (i : Instruction) :
  In (Add n i) (trace w req) \/ In (Add n i) (V1.trace w req) ->
  exists secret backend,
    BACKEND_KEYPAIR_SECRET w = Some secret /\
    keypairFromSecret w secret = Ok backend /\
    wellTargeted w req backend i.
Proof.
  intros [Hin | Hin]; revert Hin; open_request req; run.
  all: intros Hin; in_trace Hin.
  all: injection Hin; intros; subst.
  all: accept_inputs.
  all: do 2 eexists; (split; [eassumption | split; [eassumption |]]).
  all: cbn.
  all: solve [repeat split; eauto 8].
Qed.

Lemma instructions_well_targeted_witness :
  In (Add Tx2 (MintTo "MintPubkey" "UserTokenAccount" "BackendPubkey"
                 1000000000000 [] TOKEN_PROGRAM_ID))
     (trace Sample.happy Sample.scenarioA) /\
  exists secret backend,
    BACKEND_KEYPAIR_SECRET Sample.happy = Some secret /\
    keypairFromSecret Sample.happy secret = Ok backend /\
    wellTargeted Sample.happy Sample.scenarioA backend
      (MintTo "MintPubkey" "UserTokenAccount" "BackendPubkey"
         1000000000000 [] TOKEN_PROGRAM_ID).
Proof.
  assert (Hin : In (Add Tx2 (MintTo "MintPubkey" "UserTokenAccount" "BackendPubkey"
                               1000000000000 [] TOKEN_PROGRAM_ID))
                   (trace Sample.happy Sample.scenarioA))
    by (vm_compute; find_in).
  split; [exact Hin |].
  exact (instructions_well_targeted Sample.happy Sample.scenarioA _ _ (or_introl Hin)).
Defined.

(** X12. What either route signs is what it built: the transaction handed
    to [sign] holds exactly the instructions added to it, in order, has the
    custodial signer as fee payer, is signed by the custodial signer and, in
    the first (or only) transaction, the mint key, and every account the
    metadata instruction marks as signer is among its signers. *)
Theorem signed_transaction_is_what_was_built (w : World) (req : NextApiRequest) :
  (forall n t, In (Sign n t) (trace w req) -> signedAsBuilt w (trace w req) n t) /\
  (forall n t, In (Sign n t) (V1.trace w req) -> signedAsBuilt w (V1.trace w req) n t).
Proof.
  unfold signedAsBuilt.
  split; open_request req; run.
  all: intros tx t Hin; in_trace Hin.
  all: injection Hin; intros; subst.
  all: accept_inputs.
  all: (split; [reflexivity |]).
  all: do 2 eexists; (split; [eassumption | split; [eassumption |]]).
  all: (split; [reflexivity | split; [reflexivity |]]).
  all: intros i k Hi Hk; cbn in Hi.
  all: repeat match type of Hi with
       | _ \/ _ => destruct Hi as [Hi | Hi]
       | False => contradiction
       end; subst i; cbn in Hk; try contradiction.
  all: cbn; intuition.
Qed.

Lemma signed_transaction_is_what_was_built_witness :
  exists t,
    In (Sign Tx1 t) (V1.trace Sample.happy Sample.scenarioA) /\
    signedAsBuilt Sample.happy (V1.trace Sample.happy Sample.scenarioA) Tx1 t.
Proof.
  eexists. 
  assert (Hin : In (Sign Tx1 _) (V1.trace Sample.happy Sample.scenarioA))
    by (cbv; find_in).
  split; [exact Hin |].
  exact (proj2 (signed_transaction_is_what_was_built Sample.happy Sample.scenarioA)
           _ _ Hin).
Defined.

(** X13. The metadata either route builds carries the name of the request
    unchanged, zero seller fee and no creators, collection or uses; in the
    two-phase route the name has at most 32 and the symbol at most 10
    characters; the earlier route passes name and symbol as they are, with
    the symbol at most 10 characters and no limit on the name. *)
Theorem metadata_text_bounds (w : World) (req : NextApiRequest) :
  (forall d, In d (metadataBuilt (trace w req)) ->
     Some (data_name d) = Req.name (body req) /\
     (String.length (data_name d) <= 32)%nat /\
     (String.length (data_symbol d) <= 10)%nat /\
     sellerFeeBasisPoints d = 0 /\
     creators d = None /\ collection d = None /\ uses d = None) /\
  (forall d, In d (metadataBuilt (V1.trace w req)) ->
     Some (data_name d) = Req.name (body req) /\
     Some (data_symbol d) = Req.symbol (body req) /\
     (String.length (data_symbol d) <= 10)%nat /\
     data_uri d = "" /\
     sellerFeeBasisPoints d = 0 /\
     creators d = None /\ collection d = None /\ uses d = None).
Proof.
  split; open_request req; run.
  all: intros d Hin; in_trace Hin; subst d; cbn; boolp.
  all: rewrite ?substring_all by assumption.
  all: repeat split; assumption.
Qed.

Lemma metadata_text_bounds_witness :
  exists d,
    In d (metadataBuilt (V1.trace Sample.happy Cases.longNameRequest)) /\
    String.length (data_name d) = 47%nat /\
    Some (data_name d) = Req.name (body Cases.longNameRequest) /\
    Some (data_symbol d) = Req.symbol (body Cases.longNameRequest) /\
    (String.length (data_symbol d) <= 10)%nat.
Proof.
  eexists.
  assert (Hin : In _ (metadataBuilt (V1.trace Sample.happy Cases.longNameRequest)))
    by (cbv; left; reflexivity).
  split; [exact Hin | split; [reflexivity |]].
  destruct (proj2 (metadata_text_bounds Sample.happy Cases.longNameRequest) _ Hin)
    as (Hname & Hsym & Hlen & _).
  split; [exact Hname | split; [exact Hsym | exact Hlen]].
Defined.

(** ** Amounts *)

Lemma minted_amount_scaled (w : World) (req : NextApiRequest) (a : Z) :
  In a (mintToAmounts (trace w req)) \/ In a (mintToAmounts (V1.trace w req)) ->
  scaledRequest req a.
Proof.
  unfold scaledRequest.
  intros [Hin | Hin]; revert Hin; open_request req; run.
  all: intros Hin; in_trace Hin; subst a.
  all: match goal with
       | Hb : Js.BigInt ?q = Some ?n, Hg : Js.gt (Some ?q) _ = true |- _ =>
           apply bigInt_exact in Hb; apply gt_zero_iff in Hg;
           exists q, n; split; [reflexivity | split; [exact Hb | split; [| reflexivity]]];
           rewrite Hb in Hg; unfold Qlt in Hg; cbn in Hg; lia
       end.
Qed.

(** X14. Whatever the request, an amount that reaches a mint-to instruction
    of either route is the requested amount, which then is a positive
    integer, times 10^9. *)
Theorem minted_amount_is_scaled_request (w : World) (req : NextApiRequest) (a : Z) :
  In a (mintToAmounts (trace w req)) \/ In a (mintToAmounts (V1.trace w req)) ->
  scaledRequest req a.
Proof. apply minted_amount_scaled. Qed.

Lemma minted_amount_is_scaled_request_witness :
  In 1000000000000 (mintToAmounts (V1.trace Sample.happy Sample.scenarioA)) /\
  scaledRequest Sample.scenarioA 1000000000000.
Proof.
  assert (Hin : In 1000000000000
                   (mintToAmounts (V1.trace Sample.happy Sample.scenarioA)))
    by (vm_compute; find_in).
  split; [exact Hin |].
  exact (minted_amount_is_scaled_request Sample.happy Sample.scenarioA _
           (or_intror Hin)).
Defined.

(** X15. A request whose amount is not an integer never succeeds and never
    leads to a mint-to.  In the two-phase route nothing of phase 2 is
    submitted (phase 1 may have been); in the earlier route nothing is
    submitted at all, and no network call follows the balance query. *)
Theorem fractional_amount_never_minted (w : World) (req : NextApiRequest) (q : Q) :
  Req.prePurchaseAmount (body req) = Some q ->
  Js.isInteger q = false ->
  (Res.success (json (response w req)) = false /\
   mintToAmounts (trace w req) = [] /\
   existsb (isSubmitOf Tx2) (trace w req) = false) /\
  (Res.success (json (V1.response w req)) = false /\
   existsb isSubmit (V1.trace w req) = false /\
   filter isNetwork (skipn 3 (V1.trace w req)) = []).
Proof.
  intros Hq Hfrac. pose proof (fraction_is_positive q Hfrac) as Hpos.
  apply bigInt_of_fraction in Hfrac.
  split; open_request req; run.
  all: try congruence.
  all: try (specialize (Hpos eq_refl); discriminate Hpos).
  all: try (repeat split; reflexivity).
  all: repeat split; by_catchBlock; reflexivity.
Qed.

Lemma fractional_amount_never_minted_witness :
  Req.prePurchaseAmount (body Sample.fractionalRequest) = Some (3 # 2)%Q /\
  Js.isInteger (3 # 2)%Q = false /\
  submittedSizes (trace Sample.happy Sample.fractionalRequest) = [628%nat] /\
  (Res.success (json (response Sample.happy Sample.fractionalRequest)) = false /\
   mintToAmounts (trace Sample.happy Sample.fractionalRequest) = [] /\
   existsb (isSubmitOf Tx2) (trace Sample.happy Sample.fractionalRequest) = false) /\
  (Res.success (json (V1.response Sample.happy Sample.fractionalRequest)) = false /\
   existsb isSubmit (V1.trace Sample.happy Sample.fractionalRequest) = false /\
   filter isNetwork (skipn 3 (V1.trace Sample.happy Sample.fractionalRequest)) = []).
Proof.
  split; [reflexivity | split; [reflexivity | split; [reflexivity |]]].
  apply (fractional_amount_never_minted Sample.happy Sample.fractionalRequest (3 # 2)%Q);
    reflexivity.
Defined.

(** ** The two routes side by side *)

(** X16. When both routes answer 200 to a request, the instructions of the
    earlier route's single transaction are those of the two-phase route's
    first transaction after its two compute-budget instructions, followed by
    those of its second transaction after its compute-budget instruction. *)
Theorem v2_splits_the_single_transaction (w : World) (req : NextApiRequest) :
  status (response w req) = 200%nat ->
  status (V1.response w req) = 200%nat ->
  splitPlan w req.
Proof.
  unfold splitPlan, trace, response, V1.trace, V1.response. open_request req.
  destruct (handler w _) as [t2 r2] eqn:H2.
  destruct (V1.handler w _) as [t1 r1] eqn:H1.
  revert H2 H1. run.
  all: intros H2 H1; injection H2 as <- <-; injection H1 as <- <-; cbn.
  all: intros Hst Hst1; try discriminate Hst; try discriminate Hst1.
  all: boolp; rewrite ?substring_all by assumption; same_call.
  all: do 2 eexists;
       split; [reflexivity
              | split; [first [left; split; reflexivity | right; reflexivity]
                       | reflexivity]].
Qed.

Lemma v2_splits_the_single_transaction_witness :
  status (response Sample.happy Sample.scenarioA) = 200%nat /\
  status (V1.response Sample.happy Sample.scenarioA) = 200%nat /\
  splitPlan Sample.happy Sample.scenarioA.
Proof.
  split; [reflexivity | split; [reflexivity |]].
  apply (v2_splits_the_single_transaction Sample.happy Sample.scenarioA); reflexivity.
Defined.

(** ** The balance guard of the earlier route *)

Lemma V1_balance_checked_before_first_add (w : World) (req : NextApiRequest)
      (pre : list Event) :
  beforeFirstAdd (V1.trace w req) = Some pre ->
  exists url secret backend lamports bal,
    BACKEND_KEYPAIR_SECRET w = Some secret /\
    keypairFromSecret w secret = Ok backend /\
    In (BalanceQuery url (publicKey backend)) pre /\
    getMinimumBalanceForRentExemptMint w url = Ok lamports /\
    getBalance w url (publicKey backend) = Ok bal /\
    lamports + FEE_BUFFER <= bal.
Proof.
  open_request req. run.
  all: intros Hpre; try discriminate Hpre.
  all: injection Hpre as <-; accept_inputs.
  all: eexists; do 4 eexists;
       (split; [eassumption
               | split; [eassumption
               | split; [cbn; find_in
               | split; [eassumption | split; [eassumption | assumption]]]]]).
Qed.

Lemma V1_insufficient_balance_reported (w : World) (req : NextApiRequest)
      (url : string) (pk : PublicKey) (lamports bal : Z) :
  In (BalanceQuery url pk) (V1.trace w req) ->
  getMinimumBalanceForRentExemptMint w url = Ok lamports ->
  getBalance w url pk = Ok bal ->
  bal < lamports + FEE_BUFFER ->
  V1.response w req =
    mkResponse 400 (Res.failure (InsufficientSol (lamports + FEE_BUFFER))) /\
  existsb isAdd (V1.trace w req) = false /\
  existsb isSubmit (V1.trace w req) = false.
Proof.
  intros Hin Hrent Hbal Hlt. revert Hin. open_request req. run.
  all: intros Hin; in_trace Hin.
  all: injection Hin as <- <-.
  all: try congruence.
  all: boolp; same_call.
  all: try lia.
  all: repeat split.
Qed.

(** X17. The earlier route has the same balance guard as the two-phase one:
    every instruction it adds is preceded by the balance query for the
    custodial signer with an answer of at least the rent-exempt minimum plus
    the fee buffer, and a lower balance gives the insufficient-SOL 400 with
    no instruction built and nothing submitted. *)
Theorem V1_balance_guard (w : World) (req : NextApiRequest) :
  balanceGuarded w (V1.trace w req) (V1.response w req).
Proof.
  split.
  - intros l1 e l2 Hsplit He.
    destruct (beforeFirstAdd_split _ _ _ _ Hsplit He) as [pre [Hpre Hincl]].
    destruct (V1_balance_checked_before_first_add w req pre Hpre)
      as (url & secret & backend & lamports & bal
          & Hsecret & Hkey & Hin & Hrent & Hbal & Hle).
    exists url, secret, backend, lamports, bal. repeat split; auto.
  - apply V1_insufficient_balance_reported.
Qed.

Lemma V1_balance_guard_witness :
  V1.response Sample.poor Sample.scenarioA =
    mkResponse 400 (Res.failure (InsufficientSol (1461600 + FEE_BUFFER))) /\
  existsb isAdd (V1.trace Sample.poor Sample.scenarioA) = false /\
  existsb isSubmit (V1.trace Sample.poor Sample.scenarioA) = false.
Proof.
  apply (proj2 (V1_balance_guard Sample.poor Sample.scenarioA)
           Sample.devnet "BackendPubkey" 1461600 5000000).
  - vm_compute. find_in.
  - reflexivity.
  - reflexivity.
  - reflexivity.
Defined.

(** ** The form *)

Lemma form_request_shape
      (trim toUpperCase : string -> string) (parseFloat : string -> Form.Parsed)
      (connected : bool) (pk : option PublicKey) (f : Form.FormData)
      (url : string) (req : NextApiRequest) :
  Form.handleSubmit trim toUpperCase parseFloat connected pk f = Form.Fetch url req ->
  checkedRequest trim toUpperCase parseFloat connected pk f url req.
Proof.
  unfold Form.handleSubmit, checkedRequest.
  destruct connected; [| discriminate].
  destruct pk as [pk|]; [| discriminate].
  destruct (String.eqb_spec (trim (Form.name f)) "") as [| Hname]; [discriminate |].
  destruct (String.eqb_spec (trim (Form.ticker f)) "") as [| Hticker]; [discriminate |].
  destruct (Nat.ltb_spec 10 (String.length (Form.ticker f))) as [| Hlen]; [discriminate |].
  destruct (parseFloat _) as [| | | q] eqn:Hparse; cbn [Form.isNaN Form.lt Form.gt orb];
    try discriminate.
  destruct (Js.lt (Some q) (Some 0%Q)) eqn:Hlt; [discriminate |].
  destruct (Js.gt (Some q) (Some (inject_Z MAX_PREPURCHASE_AMOUNT))) eqn:Hgt;
    [discriminate |].
  intros H. injection H as <- <-. cbn.
  repeat (split; [first [reflexivity | assumption | discriminate | lia] |]).
  split.
  { destruct (String.eqb_spec (trim (Form.description f)) ""); [discriminate |].
    congruence. }
  exists q. split; [reflexivity | split; [reflexivity |]].
  unfold Js.gt, Js.lt in Hlt, Hgt. split.
  - destruct (Qcompare_spec q 0) as [E|E|E]; try discriminate.
    + rewrite E. apply Qle_refl.
    + apply Qlt_le_weak, E.
  - destruct (Qcompare_spec (inject_Z MAX_PREPURCHASE_AMOUNT) q) as [E|E|E];
      try discriminate.
    + rewrite E. apply Qle_refl.
    + apply Qlt_le_weak, E.
Qed.

(** X18. Whatever the string built-ins do, a request the form sends goes by
    POST to /api/create-token from a connected wallet, carries that wallet,
    the trimmed non-empty name, the upper-cased trimmed ticker (the ticker
    typed was at most 10 characters and not blank), a description that is
    absent rather than empty, and as amount the parsed number, which is
    finite and between 0 and MAX_PREPURCHASE_AMOUNT; the form does not ask
    the amount to be an integer. *)
Theorem form_sends_only_checked_requests
        (trim toUpperCase : string -> string) (parseFloat : string -> Form.Parsed)
        (connected : bool) (pk : option PublicKey) (f : Form.FormData)
        (url : string) (req : NextApiRequest) :
  Form.handleSubmit trim toUpperCase parseFloat connected pk f = Form.Fetch url req ->
  checkedRequest trim toUpperCase parseFloat connected pk f url req.
Proof. apply form_request_shape. Qed.

Lemma form_sends_only_checked_requests_witness :
  Cases.submit Cases.fractional =
    Form.Fetch "/api/create-token"
      (mkRequest "POST"
         (Req.mk (Some "Test Token") (Some "TEST") None (Some (3 # 2)%Q)
                 (Some "UserWalletPubkey"))) /\
  checkedRequest Cases.dropSpaces Js.toUpperCase Cases.parseDigits true
    (Some "UserWalletPubkey") Cases.fractional "/api/create-token"
    (mkRequest "POST"
       (Req.mk (Some "Test Token") (Some "TEST") None (Some (3 # 2)%Q)
               (Some "UserWalletPubkey"))).
Proof.
  split; [reflexivity |].
  apply form_sends_only_checked_requests. reflexivity.
Defined.

(** X19. A request sent by the form never makes either route mint more than
    MAX_PREPURCHASE_AMOUNT * 10^9 base units: every mint-to amount is
    positive, at most 10^18 and so below 2^64. *)
Theorem form_requests_mint_within_u64
        (trim toUpperCase : string -> string) (parseFloat : string -> Form.Parsed)
        (connected : bool) (pk : option PublicKey) (f : Form.FormData)
        (url : string) (req : NextApiRequest) (w : World) (a : Z) :
  Form.handleSubmit trim toUpperCase parseFloat connected pk f = Form.Fetch url req ->
  In a (mintToAmounts (trace w req)) \/ In a (mintToAmounts (V1.trace w req)) ->
  0 < a <= MAX_PREPURCHASE_AMOUNT * 10 ^ TOKEN_DECIMALS /\ a < 2 ^ 64.
Proof.
  intros Hform Hin.
  destruct (form_request_shape _ _ _ _ _ _ _ _ Hform)
    as (_ & _ & _ & _ & _ & _ & _ & _ & _ & _ & _ & q & _ & Hq & _ & Hmax).
  destruct (minted_amount_scaled w req a Hin) as (q' & n & Hq' & Hn & Hpos & ->).
  rewrite Hq in Hq'. injection Hq' as <-.
  rewrite Hn in Hmax. unfold Qle in Hmax. cbn in Hmax.
  unfold MAX_PREPURCHASE_AMOUNT, TOKEN_DECIMALS in *. lia.
Qed.

Lemma form_requests_mint_within_u64_witness :
  Cases.submit Cases.filled =
    Form.Fetch "/api/create-token"
      (mkRequest "POST"
         (Req.mk (Some "Test Token") (Some "TEST") None (Some (inject_Z 1000))
                 (Some "UserWalletPubkey"))) /\
  In 1000000000000
     (mintToAmounts
        (V1.trace Sample.happy
           (mkRequest "POST"
              (Req.mk (Some "Test Token") (Some "TEST") None (Some (inject_Z 1000))
                      (Some "UserWalletPubkey"))))) /\
  0 < 1000000000000 <= MAX_PREPURCHASE_AMOUNT * 10 ^ TOKEN_DECIMALS /\
  1000000000000 < 2 ^ 64.
Proof.
  assert (Hsent : Cases.submit Cases.filled =
    Form.Fetch "/api/create-token"
      (mkRequest "POST"
         (Req.mk (Some "Test Token") (Some "TEST") None (Some (inject_Z 1000))
                 (Some "UserWalletPubkey")))) by reflexivity.
  assert (Hin : In 1000000000000
     (mintToAmounts
        (V1.trace Sample.happy
           (mkRequest "POST"
              (Req.mk (Some "Test Token") (Some "TEST") None (Some (inject_Z 1000))
                      (Some "UserWalletPubkey"))))))
    by (vm_compute; find_in).
  split; [exact Hsent | split; [exact Hin |]].
  exact (form_requests_mint_within_u64 _ _ _ _ _ _ _ _ Sample.happy _ Hsent
           (or_intror Hin)).
Defined.
